(** * BeScreenCapture: the capture / encode controller

    A shallow embedding of [Controller] (Controller.cpp) and of the
    capture worker it spawns.  The controller object is a record, every
    member function is a function from controller to controller, and
    whatever the code obtains from the operating system (thread ids, the
    clock, the outcome of a screen read) is an explicit argument. *)

From Stdlib Require Import ZArith List String Ascii Bool Lia.
Import ListNotations.
Open Scope Z_scope.

(** ** Machine integers and system constants *)

(** [int32] values are kept in [Z]; [wrap32] is the two's complement
    reduction applied by 32-bit arithmetic. *)
Definition wrap32 (z : Z) : Z := (z + 2147483648) mod 4294967296 - 2147483648.

Definition INT32_MAX : Z := 2147483647.

Definition status_t := Z.
Definition thread_id := Z.
Definition bigtime_t := Z.

(** Haiku's Errors.h. *)
Definition B_OK : status_t := 0.
Definition B_ERROR : status_t := -1.
Definition B_GENERAL_ERROR_BASE : status_t := -2147483648.
Definition B_NO_MEMORY : status_t := B_GENERAL_ERROR_BASE + 0.

(** How a call ends: normally, or by one of the ways the C++ code can
    leave the normal path. *)
Inductive result (A : Type) : Type :=
| Done (a : A)
| NullDeref                  (* a member is reached through a NULL pointer *)
| DivideByZero               (* integer division by zero *)
| Uncaught (e : Z)           (* [throw] with no handler on the stack *)
| Blocked.                   (* a join on a thread that does not exit *)
Arguments Done {A} a.
Arguments NullDeref {A}.
Arguments DivideByZero {A}.
Arguments Uncaught {A} e.
Arguments Blocked {A}.

Definition bind {A B : Type} (r : result A) (k : A -> result B) : result B :=
  match r with
  | Done a => k a
  | NullDeref => NullDeref
  | DivideByZero => DivideByZero
  | Uncaught e => Uncaught e
  | Blocked => Blocked
  end.

Notation "x <- r ;; k" := (bind r (fun x => k))
  (at level 61, r at next level, right associativity).

(** ** C strings *)

(** [strcmp]: the difference of the first pair of bytes that differ, the
    end of a string counting as byte 0. *)
Fixpoint strcmp (a b : string) : Z :=
  match a, b with
  | EmptyString, EmptyString => 0
  | EmptyString, String y _ => 0 - Z.of_nat (nat_of_ascii y)
  | String x _, EmptyString => Z.of_nat (nat_of_ascii x)
  | String x a', String y b' =>
      if Ascii.eqb x y then strcmp a' b'
      else Z.of_nat (nat_of_ascii x) - Z.of_nat (nat_of_ascii y)
  end.

(** A C string holds no NUL byte before its end. *)
Fixpoint c_string (s : string) : Prop :=
  match s with
  | EmptyString => True
  | String x s' => x <> zero /\ c_string s'
  end.

(** ** Messages sent to the observers *)

Inductive notice_code : Type :=
| kMsgControllerCaptureStarted
| kMsgControllerCaptureStopped
| kMsgControllerCapturePaused
| kMsgControllerCaptureResumed
| kMsgControllerEncodeStarted
| kMsgControllerEncodeProgress
| kMsgControllerEncodeFinished
| kMsgControllerCodecChanged
| kMsgGUIToggleCapture.

Inductive field : Type :=
| FInt32 (v : Z)
| FString (v : string).

Record BMessage : Type := mkBMessage
  { what : notice_code;
    fields : list (string * field) }.

(** ** Collaborators *)

(** BStopWatch (Haiku support kit): a start time and, while suspended, the
    time of suspension; 0 means running. *)
Record BStopWatch : Type := mkBStopWatch
  { fStart : bigtime_t;
    fSuspendTime : bigtime_t }.

Definition new_BStopWatch (now : bigtime_t) : BStopWatch :=
  {| fStart := now; fSuspendTime := 0 |}.

Definition ElapsedTime (now : bigtime_t) (w : BStopWatch) : bigtime_t :=
  if fSuspendTime w =? 0 then now - fStart w else fSuspendTime w - fStart w.

Definition Suspend (now : bigtime_t) (w : BStopWatch) : BStopWatch :=
  if fSuspendTime w =? 0 then {| fStart := fStart w; fSuspendTime := now |} else w.

Definition Resume (now : bigtime_t) (w : BStopWatch) : BStopWatch :=
  if fSuspendTime w =? 0 then w
  else {| fStart := fStart w + (now - fSuspendTime w); fSuspendTime := 0 |}.

(** BMessageRunner: posts [runner_message] every [runner_interval]
    microseconds, [runner_count] times. *)
Record BMessageRunner : Type := mkBMessageRunner
  { runner_message : notice_code;
    runner_interval : bigtime_t;
    runner_count : Z }.

(** A captured frame as the list keeps it: the bitmap and its time stamp. *)
Record BitmapEntry : Type := mkBitmapEntry
  { entry_bitmap : nat;
    entry_time : bigtime_t }.

(** Modelled from the spec: FramesList.cpp is not part of the sources at
    hand.  The frame store is the ordered sequence of the frames appended
    so far; [AddItem] appends at the end and answers [false], leaving the
    store as it was, when storage is exhausted ([ok] is that outcome);
    [CountItems] is the number of frames held. *)
Definition FramesList := list BitmapEntry.

Definition new_FramesList : FramesList := [].

Definition CountItems (l : FramesList) : Z := Z.of_nat (List.length l).

Definition AddItem (ok : bool) (bitmap : nat) (time : bigtime_t)
    (l : FramesList) : bool * FramesList :=
  if ok then (true, (l ++ [mkBitmapEntry bitmap time])%list) else (false, l).

Record media_codec_info : Type := mkCodec
  { pretty_name : string;
    short_name : string;
    codec_id : Z }.

(** Modelled from the spec: MovieEncoder.cpp is not part of the sources at
    hand.  The encoder is the opaque service of the spec: it remembers what
    the controller hands to it, and [encode_workers] counts the calls of
    [EncodeThreaded], each of which spawns one encode worker. *)
Record MovieEncoder : Type := mkEncoder
  { enc_codec : option media_codec_info;
    enc_output_file : option string;
    enc_source : option FramesList;
    enc_cancelled : bool;
    encode_workers : nat }.

Definition SetMediaCodecInfo (codec : media_codec_info) (e : MovieEncoder) : MovieEncoder :=
  {| enc_codec := Some codec; enc_output_file := enc_output_file e;
     enc_source := enc_source e; enc_cancelled := enc_cancelled e;
     encode_workers := encode_workers e |}.

Definition SetOutputFile (f : string) (e : MovieEncoder) : MovieEncoder :=
  {| enc_codec := enc_codec e; enc_output_file := Some f;
     enc_source := enc_source e; enc_cancelled := enc_cancelled e;
     encode_workers := encode_workers e |}.

Definition SetSource (l : FramesList) (e : MovieEncoder) : MovieEncoder :=
  {| enc_codec := enc_codec e; enc_output_file := enc_output_file e;
     enc_source := Some l; enc_cancelled := enc_cancelled e;
     encode_workers := encode_workers e |}.

Definition Encoder_Cancel (e : MovieEncoder) : MovieEncoder :=
  {| enc_codec := enc_codec e; enc_output_file := enc_output_file e;
     enc_source := enc_source e; enc_cancelled := true;
     encode_workers := encode_workers e |}.

Definition EncodeThreaded (e : MovieEncoder) : MovieEncoder :=
  {| enc_codec := enc_codec e; enc_output_file := enc_output_file e;
     enc_source := enc_source e; enc_cancelled := enc_cancelled e;
     encode_workers := S (encode_workers e) |}.

(** The part of [Settings::Current()] the controller writes. *)
Record Settings : Type := mkSettings
  { OutputCodec : string }.

(** The local variables of a running [CaptureThread]. *)
Record CaptureLocals : Type := mkLocals
  { error : status_t }.

(** ** The controller *)

(** The data members of [Controller] that the modelled member functions
    touch, under their own names.  Three more components stand for what
    lives outside the object: [settings] is [Settings::Current()],
    [notices] is the sequence of messages passed to [SendNotices], oldest
    first, and [worker] is the capture thread, present from [spawn_thread]
    until it returns or is killed. *)
Record Controller : Type := mkController
  { fCaptureThread : thread_id;
    fNumFrames : Z;
    fRecordWatch : option BStopWatch;
    fKillCaptureThread : bool;
    fPaused : bool;
    fEncoder : MovieEncoder;
    fEncoderThread : thread_id;
    fFileList : option FramesList;
    fCodecList : option (list media_codec_info);
    fStopRunner : option BMessageRunner;
    fRequestedRecordTime : bigtime_t;
    settings : Settings;
    notices : list BMessage;
    worker : option CaptureLocals }.

Definition set_fCaptureThread (v : thread_id) (c : Controller) : Controller :=
  mkController v (fNumFrames c) (fRecordWatch c) (fKillCaptureThread c) (fPaused c)
    (fEncoder c) (fEncoderThread c) (fFileList c) (fCodecList c) (fStopRunner c)
    (fRequestedRecordTime c) (settings c) (notices c) (worker c).

Definition set_fNumFrames (v : Z) (c : Controller) : Controller :=
  mkController (fCaptureThread c) v (fRecordWatch c) (fKillCaptureThread c) (fPaused c)
    (fEncoder c) (fEncoderThread c) (fFileList c) (fCodecList c) (fStopRunner c)
    (fRequestedRecordTime c) (settings c) (notices c) (worker c).

Definition set_fRecordWatch (v : option BStopWatch) (c : Controller) : Controller :=
  mkController (fCaptureThread c) (fNumFrames c) v (fKillCaptureThread c) (fPaused c)
    (fEncoder c) (fEncoderThread c) (fFileList c) (fCodecList c) (fStopRunner c)
    (fRequestedRecordTime c) (settings c) (notices c) (worker c).

Definition set_fKillCaptureThread (v : bool) (c : Controller) : Controller :=
  mkController (fCaptureThread c) (fNumFrames c) (fRecordWatch c) v (fPaused c)
    (fEncoder c) (fEncoderThread c) (fFileList c) (fCodecList c) (fStopRunner c)
    (fRequestedRecordTime c) (settings c) (notices c) (worker c).

Definition set_fPaused (v : bool) (c : Controller) : Controller :=
  mkController (fCaptureThread c) (fNumFrames c) (fRecordWatch c) (fKillCaptureThread c) v
    (fEncoder c) (fEncoderThread c) (fFileList c) (fCodecList c) (fStopRunner c)
    (fRequestedRecordTime c) (settings c) (notices c) (worker c).

Definition set_fEncoder (v : MovieEncoder) (c : Controller) : Controller :=
  mkController (fCaptureThread c) (fNumFrames c) (fRecordWatch c) (fKillCaptureThread c)
    (fPaused c) v (fEncoderThread c) (fFileList c) (fCodecList c) (fStopRunner c)
    (fRequestedRecordTime c) (settings c) (notices c) (worker c).

Definition set_fEncoderThread (v : thread_id) (c : Controller) : Controller :=
  mkController (fCaptureThread c) (fNumFrames c) (fRecordWatch c) (fKillCaptureThread c)
    (fPaused c) (fEncoder c) v (fFileList c) (fCodecList c) (fStopRunner c)
    (fRequestedRecordTime c) (settings c) (notices c) (worker c).

Definition set_fFileList (v : option FramesList) (c : Controller) : Controller :=
  mkController (fCaptureThread c) (fNumFrames c) (fRecordWatch c) (fKillCaptureThread c)
    (fPaused c) (fEncoder c) (fEncoderThread c) v (fCodecList c) (fStopRunner c)
    (fRequestedRecordTime c) (settings c) (notices c) (worker c).

Definition set_fStopRunner (v : option BMessageRunner) (c : Controller) : Controller :=
  mkController (fCaptureThread c) (fNumFrames c) (fRecordWatch c) (fKillCaptureThread c)
    (fPaused c) (fEncoder c) (fEncoderThread c) (fFileList c) (fCodecList c) v
    (fRequestedRecordTime c) (settings c) (notices c) (worker c).

Definition set_fRequestedRecordTime (v : bigtime_t) (c : Controller) : Controller :=
  mkController (fCaptureThread c) (fNumFrames c) (fRecordWatch c) (fKillCaptureThread c)
    (fPaused c) (fEncoder c) (fEncoderThread c) (fFileList c) (fCodecList c) (fStopRunner c)
    v (settings c) (notices c) (worker c).

Definition set_settings (v : Settings) (c : Controller) : Controller :=
  mkController (fCaptureThread c) (fNumFrames c) (fRecordWatch c) (fKillCaptureThread c)
    (fPaused c) (fEncoder c) (fEncoderThread c) (fFileList c) (fCodecList c) (fStopRunner c)
    (fRequestedRecordTime c) v (notices c) (worker c).

Definition set_worker (v : option CaptureLocals) (c : Controller) : Controller :=
  mkController (fCaptureThread c) (fNumFrames c) (fRecordWatch c) (fKillCaptureThread c)
    (fPaused c) (fEncoder c) (fEncoderThread c) (fFileList c) (fCodecList c) (fStopRunner c)
    (fRequestedRecordTime c) (settings c) (notices c) v.

(** [SendNotices(what, &message)]: the message joins the sequence of
    notices, after those already sent. *)
Definition SendNotices (m : BMessage) (c : Controller) : Controller :=
  mkController (fCaptureThread c) (fNumFrames c) (fRecordWatch c) (fKillCaptureThread c)
    (fPaused c) (fEncoder c) (fEncoderThread c) (fFileList c) (fCodecList c) (fStopRunner c)
    (fRequestedRecordTime c) (settings c) (notices c ++ [m])%list (worker c).

(** The controller as the constructor's initialiser list leaves it. *)
Definition initial_encoder : MovieEncoder :=
  mkEncoder None None None false 0.

Definition initial_Controller : Controller :=
  {| fCaptureThread := -1;
     fNumFrames := 0;
     fRecordWatch := None;
     fKillCaptureThread := true;
     fPaused := false;
     fEncoder := initial_encoder;
     fEncoderThread := -1;
     fFileList := None;
     fCodecList := None;
     fStopRunner := None;
     fRequestedRecordTime := 0;
     settings := mkSettings EmptyString;
     notices := [];
     worker := None |}.

(** ** State, and the queries built on it *)

Inductive state : Type :=
| STATE_IDLE
| STATE_RECORDING
| STATE_ENCODING.

Definition is_non_null {A : Type} (p : option A) : bool :=
  match p with Some _ => true | None => false end.

Definition State (c : Controller) : state :=
  if fCaptureThread c >? 0 then STATE_RECORDING
  else if (fEncoderThread c >? 0) || is_non_null (fFileList c) then STATE_ENCODING
  else STATE_IDLE.

Definition RecordedFrames (c : Controller) : Z := fNumFrames c.

(** [now] is what [system_time()] answers when the stop watch is read. *)
Definition RecordTime (now : bigtime_t) (c : Controller) : bigtime_t :=
  match fRecordWatch c with
  | Some w => ElapsedTime now w
  | None => 0
  end.

(** [AverageFPS] reads the record time twice, at [t1] and then at [t2].
    The product is formed in [int32], the quotient in [bigtime_t], and the
    value returned is cut to [int32]. *)
Definition AverageFPS (t1 t2 : bigtime_t) (c : Controller) : result Z :=
  if RecordTime t1 c =? 0 then Done 0
  else
    let divisor := RecordTime t2 c in
    if divisor =? 0 then DivideByZero
    else Done (wrap32 (Z.quot (wrap32 (RecordedFrames c * 1000000)) divisor)).

Definition SetRecordingTime (msecs : bigtime_t) (c : Controller) : Controller :=
  (* Bail out if recording is already started *)
  if fCaptureThread c >? 0 then c
  else set_fRequestedRecordTime msecs c.

(** ** Codec selection *)

Definition codec_changed_message (codec : media_codec_info) : BMessage :=
  mkBMessage kMsgControllerCodecChanged
    [("codec_name"%string, FString (pretty_name codec))].

(** The body of the [if] inside the loop of [SetMediaCodec]. *)
Definition apply_codec (codec : media_codec_info) (c : Controller) : Controller :=
  let c := set_fEncoder (SetMediaCodecInfo codec (fEncoder c)) c in
  let c := set_settings (mkSettings (pretty_name codec)) c in
  SendNotices (codec_changed_message codec) c.

(** The [for] loop over the codec list, from the entry at hand onwards. *)
Fixpoint SetMediaCodec_from (codecs : list media_codec_info) (codecName : string)
    (c : Controller) : Controller :=
  match codecs with
  | [] => c
  | codec :: rest =>
      if strcmp (pretty_name codec) codecName =? 0
      then apply_codec codec c          (* break *)
      else SetMediaCodec_from rest codecName c
  end.

Definition SetMediaCodec (codecName : string) (c : Controller) : result Controller :=
  match fCodecList c with
  | None => NullDeref
  | Some codecs => Done (SetMediaCodec_from codecs codecName c)
  end.

(** ** What the environment answers *)

(** One pass of the capture worker through the capturing branch of its
    loop: the bitmap allocated, what [ReadBitmap] returns, the time stamp
    taken after it, and whether the frame store accepts the frame. *)
Record Snapshot : Type := mkSnapshot
  { snap_bitmap : nat;
    snap_ReadBitmap : status_t;
    snap_time : bigtime_t;
    snap_AddItem : bool }.

(** The answers of the system during one call of a member function. *)
Record Env : Type := mkEnv
  { env_now : bigtime_t;                   (* system_time() *)
    env_new_FramesList : option status_t;  (* [Some e]: the constructor throws [e] *)
    env_spawn_thread : thread_id;
    env_resume_thread : status_t;
    env_in_flight : option Snapshot;       (* the pass the worker is in when it is joined *)
    env_find_directory : status_t;
    env_mkstemp : Z;
    env_errno : Z;
    env_temp_file_name : string;
    env_EncodeThreaded : thread_id;
    env_dest_file : string }.              (* destFile.Path() after the move *)

(** ** The capture worker *)

Definition capture_stopped_message (status : status_t) : BMessage :=
  mkBMessage kMsgControllerCaptureStopped [("status"%string, FInt32 status)].

(** The branch [if (!fPaused)] of the loop body.  The third component
    tells whether the pass left the loop by [break]. *)
Definition capture_pass (s : Snapshot) (l : CaptureLocals) (c : Controller)
    : result (Controller * CaptureLocals * bool) :=
  let l := mkLocals (snap_ReadBitmap s) in
  if negb (error l =? B_OK) then Done (c, l, true)
  else
    match fFileList c with
    | None => NullDeref
    | Some frames =>
        (* Takes ownership of the bitmap *)
        let (added, frames) :=
          AddItem (snap_AddItem s) (snap_bitmap s) (snap_time s) frames in
        let c := set_fFileList (Some frames) c in
        if negb added then Done (c, mkLocals B_NO_MEMORY, true)
        else Done (set_fNumFrames (wrap32 (fNumFrames c + 1)) c, l, false)
    end.

(** The statements of [CaptureThread] after the loop. *)
Definition CaptureThread_exit (l : CaptureLocals) (c : Controller) : Controller :=
  let c := set_fCaptureThread (-1) c in
  let c := set_fKillCaptureThread true c in
  let c :=
    if negb (error l =? B_OK) then
      let c := SendNotices (capture_stopped_message (error l)) c in
      set_fFileList None c
    else c in
  set_worker None c.

(** One turn of the worker: the loop condition, then the body; when the
    loop is left the worker runs to its [return]. *)
Definition CaptureThread_step (s : Snapshot) (c : Controller) : result Controller :=
  match worker c with
  | None => Done c
  | Some l =>
      if fKillCaptureThread c then Done (CaptureThread_exit l c)
      else if negb (fPaused c) then
        r <- capture_pass s l c ;;
        match r with
        | (c, l, true) => Done (CaptureThread_exit l c)
        | (c, l, false) => Done (set_worker (Some l) c)
        end
      else Done c                       (* snooze(500000) *)
  end.

Fixpoint CaptureThread_run (passes : list Snapshot) (c : Controller) : result Controller :=
  match passes with
  | [] => Done c
  | s :: rest => c <- CaptureThread_step s c ;; CaptureThread_run rest c
  end.

(** [wait_for_thread(fCaptureThread, ...)]: the worker finishes the
    capturing pass it is in, if any, and meets the loop condition; the
    caller goes on once the worker has returned.  A thread that is gone
    already is not waited for. *)
Definition wait_for_thread (in_flight : option Snapshot) (c : Controller)
    : result Controller :=
  match worker c with
  | None => Done c
  | Some l =>
      r <- match in_flight with
           | Some s => capture_pass s l c
           | None => Done (c, l, false)
           end ;;
      match r with
      | (c, l, true) => Done (CaptureThread_exit l c)
      | (c, l, false) =>
          if fKillCaptureThread c then Done (CaptureThread_exit l c) else Blocked
      end
  end.

(** ** Starting, ending and cancelling a recording *)

Definition auto_stop_runner (interval : bigtime_t) : BMessageRunner :=
  mkBMessageRunner kMsgGUIToggleCapture interval 1.

(** [StartCapture] from the end of the [try] block onwards. *)
Definition StartCapture_launch (env : Env) (c : Controller) : result Controller :=
  let c := set_fKillCaptureThread false c in
  let c := set_fPaused false c in
  let c := set_fCaptureThread (env_spawn_thread env) c in
  if fCaptureThread c <? 0 then
    Done (SendNotices (capture_stopped_message (fCaptureThread c)) c)
  else
    let c := set_worker (Some (mkLocals B_ERROR)) c in
    let status := env_resume_thread env in
    if status <? B_OK then
      let c := set_worker None c in                (* kill_thread *)
      Done (SendNotices (capture_stopped_message status) c)
    else
      let c := set_fRecordWatch (Some (new_BStopWatch (env_now env))) c in
      let c := set_fStopRunner None c in
      let c :=
        if negb (fRequestedRecordTime c =? 0) then
          let c := set_fStopRunner
                     (Some (auto_stop_runner (fRequestedRecordTime c))) c in
          (* reset requested record time, so it won't be used for the next time *)
          set_fRequestedRecordTime 0 c
        else c in
      Done (SendNotices (mkBMessage kMsgControllerCaptureStarted []) c).

Definition StartCapture (env : Env) (c : Controller) : result Controller :=
  let c := set_fNumFrames 0 c in
  match fFileList c with
  | None =>
      match env_new_FramesList env with
      | Some thrown =>                              (* catch (status_t& error) *)
          Done (SendNotices (capture_stopped_message thrown) c)
      | None => StartCapture_launch env (set_fFileList (Some new_FramesList) c)
      end
  | Some _ => StartCapture_launch env c
  end.

Definition encode_finished_message (env : Env) (status : status_t)
    (fileName : option string) : BMessage :=
  mkBMessage kMsgControllerEncodeFinished
    (("status"%string, FInt32 status) ::
     match fileName with
     | Some _ => [("file_name"%string, FString (env_dest_file env))]
     | None => []
     end).

(** The move of the temporary file happens in the file system and leaves
    the controller as it is; [env_dest_file] is the path it ends at. *)
Definition _EncodingFinished (env : Env) (status : status_t)
    (fileName : option string) (c : Controller) : Controller :=
  let c := set_fEncoderThread (-1) c in
  let c := set_fNumFrames 0 c in
  SendNotices (encode_finished_message env status fileName) c.

Definition encode_started_message (numFrames : Z) : BMessage :=
  mkBMessage kMsgControllerEncodeStarted [("frames_total"%string, FInt32 numFrames)].

Definition EncodeMovie (env : Env) (c : Controller) : result Controller :=
  match fFileList c with
  | None => NullDeref
  | Some frames =>
      let numFrames := CountItems frames in
      if numFrames <=? 0 then
        let c := _EncodingFinished env B_ERROR None c in
        Done (set_fFileList None c)
      else if negb (env_find_directory env =? B_OK) then Uncaught (env_find_directory env)
      else if env_mkstemp env <? 0 then Uncaught (env_errno env)
      else
        (* Tell the encoder where to write *)
        let c := set_fEncoder (SetOutputFile (env_temp_file_name env) (fEncoder c)) c in
        let c := SendNotices (encode_started_message numFrames) c in
        let c := set_fEncoder (SetSource frames (fEncoder c)) c in
        let c := set_fFileList None c in
        let c := set_fEncoder (EncodeThreaded (fEncoder c)) c in
        Done (set_fEncoderThread (env_EncodeThreaded env) c)
  end.

Definition EndCapture (env : Env) (c : Controller) : result Controller :=
  c <- (if fCaptureThread c >? 0 then
          let c := set_fPaused false c in
          let c := set_fKillCaptureThread true c in
          wait_for_thread (env_in_flight env) c
        else Done c) ;;
  match fRecordWatch c with
  | None => NullDeref
  | Some w =>
      let c := set_fRecordWatch (Some (Suspend (env_now env) w)) c in
      let c := SendNotices (mkBMessage kMsgControllerCaptureStopped []) c in
      EncodeMovie env c
  end.

Definition Cancel (env : Env) (c : Controller) : result Controller :=
  match State c with
  | STATE_RECORDING =>
      let c := set_fKillCaptureThread true c in
      c <- wait_for_thread (env_in_flight env) c ;;
      Done (set_fCaptureThread (-1) c)
  | STATE_ENCODING =>
      let c := set_fEncoder (Encoder_Cancel (fEncoder c)) c in
      Done (set_fEncoderThread (-1) c)
  | STATE_IDLE => Done c
  end.

Definition ToggleCapture (env : Env) (c : Controller) : result Controller :=
  match State c with
  | STATE_IDLE => StartCapture env c
  | STATE_RECORDING => EndCapture env c
  | STATE_ENCODING => Done c            (* DO NOTHING *)
  end.

Definition _PauseCapture (env : Env) (c : Controller) : result Controller :=
  let c := SendNotices (mkBMessage kMsgControllerCapturePaused []) c in
  match fRecordWatch c with
  | None => NullDeref
  | Some w =>
      let c := set_fRecordWatch (Some (Suspend (env_now env) w)) c in
      Done (set_fPaused true c)         (* suspend_thread *)
  end.

Definition _ResumeCapture (env : Env) (c : Controller) : result Controller :=
  let c := set_fPaused false c in       (* resume_thread *)
  match fRecordWatch c with
  | None => NullDeref
  | Some w =>
      let c := set_fRecordWatch (Some (Resume (env_now env) w)) c in
      Done (SendNotices (mkBMessage kMsgControllerCaptureResumed []) c)
  end.

Definition TogglePause (env : Env) (c : Controller) : result Controller :=
  if fCaptureThread c <? 0 then Done c
  else if fPaused c then _ResumeCapture env c
  else _PauseCapture env c.

(** ** Commands and runs *)

(** What can happen to the controller: a message handled by its looper
    ([MessageReceived]), a direct call of a member function, or a turn of
    the capture worker. *)
Inductive command : Type :=
| GUIToggleCapture (env : Env)            (* kMsgGUIToggleCapture *)
| GUITogglePause (env : Env)              (* kMsgGUITogglePause *)
| EncodingFinished (env : Env) (status : status_t) (fileName : option string)
                                          (* kEncodingFinished *)
| CallCancel (env : Env)
| CallSetRecordingTime (msecs : bigtime_t)
| CallSetMediaCodec (codecName : string)
| WorkerTurn (s : Snapshot).

Definition exec (cmd : command) (c : Controller) : result Controller :=
  match cmd with
  | GUIToggleCapture env => ToggleCapture env c
  | GUITogglePause env => TogglePause env c
  | EncodingFinished env status fileName => Done (_EncodingFinished env status fileName c)
  | CallCancel env => Cancel env c
  | CallSetRecordingTime msecs => Done (SetRecordingTime msecs c)
  | CallSetMediaCodec codecName => SetMediaCodec codecName c
  | WorkerTurn s => CaptureThread_step s c
  end.

Fixpoint run (cmds : list command) (c : Controller) : result Controller :=
  match cmds with
  | [] => Done c
  | cmd :: rest => c <- exec cmd c ;; run rest c
  end.


Definition sets_recording_time (cmd : command) : bool :=
  match cmd with
  | CallSetRecordingTime _ => true
  | _ => false
  end.

(** ** Predicates used in the statements *)

Definition capture_started_message : BMessage :=
  mkBMessage kMsgControllerCaptureStarted [].

(** [StartCapture] went all the way: its last act is the CaptureStarted
    notice. *)
Definition started (c c' : Controller) : Prop :=
  notices c' = (notices c ++ [capture_started_message])%list.



(** ** Environments and controllers used as instances *)

(** A recording of 214.8 seconds at ten frames a second, stopped. *)
Definition long_recording : Controller :=
  set_fRecordWatch (Some (mkBStopWatch 0 214800000))
    (set_fNumFrames 2148 initial_Controller).

(** An environment in which every system call succeeds and a joined
    worker is found at the head of its loop. *)
Definition calm : Env :=
  {| env_now := 1000;
     env_new_FramesList := None;
     env_spawn_thread := 77;
     env_resume_thread := B_OK;
     env_in_flight := None;
     env_find_directory := B_OK;
     env_mkstemp := 3;
     env_errno := 0;
     env_temp_file_name := "/tmp/BSC_clip_a1b2c3d";
     env_EncodeThreaded := 78;
     env_dest_file := "/boot/home/clip.avi" |}.

Definition good_frame (n : nat) : Snapshot :=
  {| snap_bitmap := n;
     snap_ReadBitmap := B_OK;
     snap_time := 2000 + 100000 * Z.of_nat n;
     snap_AddItem := true |}.

(** A recording just started, and one with a first frame in the store. *)
Definition just_started : result Controller :=
  run [GUIToggleCapture calm] initial_Controller.

Definition one_frame_in : result Controller :=
  run [GUIToggleCapture calm; WorkerTurn (good_frame 0)] initial_Controller.

(** An environment in which the frame store cannot be set up. *)
Definition no_storage : Env :=
  {| env_now := 9000;
     env_new_FramesList := Some B_NO_MEMORY;
     env_spawn_thread := 79;
     env_resume_thread := B_OK;
     env_in_flight := None;
     env_find_directory := B_OK;
     env_mkstemp := 3;
     env_errno := 0;
     env_temp_file_name := "/tmp/BSC_clip_a1b2c3d";
     env_EncodeThreaded := 80;
     env_dest_file := "/boot/home/clip.avi" |}.

Definition failed_read : Snapshot :=
  {| snap_bitmap := 1; snap_ReadBitmap := B_ERROR; snap_time := 102000;
     snap_AddItem := true |}.

(** A recording that stored one frame and then ended on a failed screen
    read: the controller is Idle again, with the frame count still 1. *)
Definition after_failed_read : result Controller :=
  run [GUIToggleCapture calm; WorkerTurn (good_frame 0); WorkerTurn failed_read]
    initial_Controller.

Definition or_initial (r : result Controller) : Controller :=
  match r with Done c => c | _ => initial_Controller end.

Definition timed_recording : Controller :=
  Eval vm_compute in
    or_initial (StartCapture calm (SetRecordingTime 2000000 initial_Controller)).

Definition session_between : list command :=
  [WorkerTurn (good_frame 0); GUIToggleCapture calm;
   EncodingFinished calm B_OK (Some "/tmp/BSC_clip_a1b2c3d"%string)].

Definition idle_again : Controller :=
  Eval vm_compute in or_initial (run session_between timed_recording).

Definition second_recording : Controller :=
  Eval vm_compute in or_initial (StartCapture calm idle_again).


Definition fresh_recording : Controller :=
  Eval vm_compute in or_initial (ToggleCapture calm initial_Controller).


Definition encoding_one_frame : Controller :=
  Eval vm_compute in
    or_initial (run [GUIToggleCapture calm; WorkerTurn (good_frame 0);
                     GUIToggleCapture calm] initial_Controller).

Definition some_codecs : list media_codec_info :=
  [mkCodec "Motion JPEG" "mjpeg" 1;
   mkCodec "Raw video" "raw" 2;
   mkCodec "Raw video" "raw-alt" 3].

Definition with_codecs : Controller :=
  mkController (-1) 0 None true false initial_encoder (-1) None (Some some_codecs)
    None 0 (mkSettings EmptyString) [] None.

Definition read_failed : Controller :=
  Eval vm_compute in or_initial (CaptureThread_step failed_read fresh_recording).

(** ** Quitting *)

(** [BLooper::QuitRequested()] answers [true]. *)
Definition QuitRequested (c : Controller) : bool :=
  if (fCaptureThread c <? 0) && negb (is_non_null (fFileList c))
     && (fEncoderThread c <? 0)
  then true
  else false.

(** [reason] is the string the caller passes in; it is written only in
    the two states that refuse. *)
Definition CanQuit (reason : string) (c : Controller) : bool * string :=
  match State c with
  | STATE_RECORDING => (false, "Recording in progress."%string)
  | STATE_ENCODING => (false, "Encoding in progress."%string)
  | STATE_IDLE => (true, reason)
  end.

(** ** The cadence of the capture worker *)

(** The head of [CaptureThread]: the frame rate of the settings, 10 when
    that is not positive, and the delay between two frames in
    microseconds, computed in [int32]. *)
Definition captureDelay (CaptureFrameRate : Z) : bigtime_t :=
  let frameRate := if CaptureFrameRate <=? 0 then 10 else CaptureFrameRate in
  wrap32 (1000 * wrap32 (Z.quot 1000 frameRate)).

(** ** Passes of the worker, told apart *)

Definition good_pass (s : Snapshot) : bool :=
  (snap_ReadBitmap s =? B_OK) && snap_AddItem s.

Definition entry_of (s : Snapshot) : BitmapEntry :=
  mkBitmapEntry (snap_bitmap s) (snap_time s).

(** The status a pass that is not good leaves in [error]. *)
Definition failure_status (s : Snapshot) : status_t :=
  if snap_ReadBitmap s =? B_OK then B_NO_MEMORY else snap_ReadBitmap s.

(** A frame store left behind: there are frames, no capture thread handle
    and no worker. *)
Definition abandoned (frames : FramesList) (c : Controller) : Prop :=
  fFileList c = Some frames /\ fCaptureThread c <= 0 /\ worker c = None.

(** An environment is fit for a start, and for a hand-over to the
    encoder. *)
Definition can_start (env : Env) : Prop :=
  env_new_FramesList env = None /\
  0 < env_spawn_thread env /\
  B_OK <= env_resume_thread env.

Definition can_hand_over (env : Env) : Prop :=
  env_find_directory env = B_OK /\
  0 <= env_mkstemp env.

(** The worker, joined, leaves without an error: the pass it is in goes
    well, or it is in none and its last one went well.  The frames held
    once it has left include the frame of the pass it was in. *)
Definition leaves_well (in_flight : option Snapshot) (l : CaptureLocals) : Prop :=
  match in_flight with
  | Some s => good_pass s = true
  | None => error l = B_OK
  end.

Definition frames_at_join (in_flight : option Snapshot) (frames : FramesList)
    : FramesList :=
  match in_flight with
  | Some s => (frames ++ [entry_of s])%list
  | None => frames
  end.

Definition count_at_join (in_flight : option Snapshot) (n : Z) : Z :=
  match in_flight with
  | Some _ => wrap32 (n + 1)
  | None => n
  end.

(** ** Reading the screen through the direct window *)

Definition wrapu32 (z : Z) : Z := z mod 4294967296.

(** A run of bytes in memory, by offset from its first byte. *)
Definition buffer := Z -> Z.

(** The members of [direct_buffer_info] that [ReadBitmap] reads: the
    frame buffer, its [int32] row pitch and its [uint32] depth. *)
Record direct_buffer_info : Type := mkDirectInfo
  { bits : buffer;
    bytes_per_row : Z;
    bits_per_pixel : Z }.

(** A rectangle with whole-number coordinates, as the frame of a screen
    area has; [IntegerWidth] and [IntegerHeight] are then the plain
    differences. *)
Record BRect : Type := mkRect
  { left : Z; top : Z; right : Z; bottom : Z }.

Definition IntegerWidth (r : BRect) : Z := wrap32 (right r - left r).
Definition IntegerHeight (r : BRect) : Z := wrap32 (bottom r - top r).

Record BBitmap : Type := mkBitmap
  { Bits : buffer;
    BytesPerRow : Z }.

(** [memcpy(dst + to, src + from, n)]. *)
Definition memcpy (dst : buffer) (to : Z) (src : buffer) (from : Z) (n : Z) : buffer :=
  fun a => if (to <=? a) && (a <? to + n) then src (from + (a - to)) else dst a.

(** The [for] loop of [ReadBitmap], with [rows] rows still to copy. *)
Fixpoint copy_rows (rows : nat) (dst : buffer) (to : Z) (src : buffer) (from : Z)
    (areaSize bytesPerRow src_bytes_per_row : Z) : buffer :=
  match rows with
  | O => dst
  | S rows' =>
      copy_rows rows' (memcpy dst to src from areaSize) (to + bytesPerRow)
        src (from + src_bytes_per_row) areaSize bytesPerRow src_bytes_per_row
  end.

(** [screen] is what [BScreen().ReadBitmap] returns and what it leaves in
    the bitmap.  The outcome is [None] when [memcpy] is handed a negative
    size, which as a [size_t] is beyond any buffer. *)
Definition ReadBitmap (UseDirectWindow fDirectWindowAvailable : bool)
    (fDirectInfo : direct_buffer_info) (screen : status_t * buffer)
    (bitmap : BBitmap) (bounds : BRect) : option (status_t * BBitmap) :=
  let useDirectWindow := UseDirectWindow && fDirectWindowAvailable in
  if negb useDirectWindow then
    Some (fst screen, mkBitmap (snd screen) (BytesPerRow bitmap))
  else
    let bytesPerPixel := wrap32 (Z.shiftr (bits_per_pixel fDirectInfo) 3) in
    if bytesPerPixel <=? 0 then Some (B_ERROR, bitmap)
    else
      let rowBytes := wrapu32 (Z.quot (bytes_per_row fDirectInfo) bytesPerPixel) in
      let offset :=
        wrap32 (wrapu32 (wrapu32 (wrapu32 (left bounds)
                                  + wrapu32 (wrapu32 (top bounds) * rowBytes))
                         * bytesPerPixel)) in
      let height := wrap32 (IntegerHeight bounds + 1) in
      let areaSize := wrap32 (wrap32 (IntegerWidth bounds + 1) * bytesPerPixel) in
      if (0 <? height) && (areaSize <? 0) then None
      else
        Some (B_OK,
              mkBitmap (copy_rows (Z.to_nat height) (Bits bitmap) 0
                          (bits fDirectInfo) offset areaSize
                          (BytesPerRow bitmap) (bytes_per_row fDirectInfo))
                       (BytesPerRow bitmap)).

(** ** Further environments and controllers used as instances *)

(** Environments in which the capture thread cannot be spawned, or
    cannot be resumed. *)
Definition no_thread : Env :=
  mkEnv 1000 None (-2147479552) B_OK None B_OK 3 0
    "/tmp/BSC_clip_a1b2c3d" 78 "/boot/home/clip.avi".

Definition no_resume : Env :=
  mkEnv 1000 None 77 B_ERROR None B_OK 3 0
    "/tmp/BSC_clip_a1b2c3d" 78 "/boot/home/clip.avi".

(** The stop arrives while the worker is in a pass that goes well. *)
Definition mid_pass : Env :=
  mkEnv 250000 None 77 B_OK (Some (good_frame 1)) B_OK 3 0
    "/tmp/BSC_clip_a1b2c3d" 78 "/boot/home/clip.avi".

Definition one_frame_recording : Controller :=
  Eval vm_compute in or_initial one_frame_in.

Definition cancelled_with_frame : Controller :=
  Eval vm_compute in or_initial (Cancel calm one_frame_recording).

Definition restless : list command :=
  [GUIToggleCapture calm; CallCancel calm; GUITogglePause calm;
   EncodingFinished calm B_OK None; WorkerTurn (good_frame 5);
   CallSetRecordingTime 5000000; GUIToggleCapture calm].


Definition small_area : BRect := mkRect 2 1 4 2.

Definition blank_bitmap : BBitmap := mkBitmap (fun _ => 0) 16.

Definition shallow_screen : direct_buffer_info :=
  mkDirectInfo (fun a => a mod 251) 10 4.

(** Ten seconds of recording with 300 frames, stopped. *)
Definition short_recording : Controller :=
  set_fRecordWatch (Some (mkBStopWatch 5000 10005000))
    (set_fNumFrames 300 initial_Controller).

(** * Properties *)

(** Case analysis on the first condition or scrutinee in the goal. *)
Ltac break_match :=
  match goal with
  | |- context [if ?b then _ else _] => destruct b eqn:?
  | |- context [match ?x with _ => _ end] => destruct x eqn:?
  end.

(** Unfold a member function down to its branches and settle each. *)
Ltac by_cases_of_code :=
  repeat (simpl; break_match); simpl;
  try (intros H; try discriminate H; injection H as <-; simpl);
  try reflexivity; try assumption.

(** ** Arithmetic and strings *)

Lemma wrap32_small (z : Z) : -2147483648 <= z <= INT32_MAX -> wrap32 z = z.
Proof.
  unfold wrap32, INT32_MAX. intros H.
  rewrite Z.mod_small; lia.
Qed.


Lemma nat_of_ascii_zero (x : ascii) : nat_of_ascii x = 0%nat -> x = zero.
Proof.
  intros H. rewrite <- (ascii_nat_embedding x), H. reflexivity.
Qed.

Lemma strcmp_refl (a : string) : strcmp a a = 0.
Proof.
  induction a as [|x a IH]; simpl; [reflexivity|].
  rewrite Ascii.eqb_refl. exact IH.
Qed.

Lemma strcmp_eq (a b : string) :
  c_string a -> c_string b -> strcmp a b = 0 -> a = b.
Proof.
  revert b. induction a as [|x a IH]; intros [|y b]; simpl; intros Ha Hb H.
  - reflexivity.
  - destruct Hb as [Hy _]. exfalso. apply Hy, nat_of_ascii_zero. lia.
  - destruct Ha as [Hx _]. exfalso. apply Hx, nat_of_ascii_zero. lia.
  - destruct Ha as [_ Ha], Hb as [_ Hb].
    destruct (Ascii.eqb x y) eqn:E.
    + apply Ascii.eqb_eq in E. subst y. f_equal. apply IH; assumption.
    + exfalso. apply Ascii.eqb_neq in E. apply E.
      rewrite <- (ascii_nat_embedding x), <- (ascii_nat_embedding y).
      f_equal. lia.
Qed.

Lemma strcmp_0_iff (a b : string) :
  c_string a -> c_string b -> (strcmp a b =? 0) = true <-> a = b.
Proof.
  intros Ha Hb. rewrite Z.eqb_eq. split.
  - apply strcmp_eq; assumption.
  - intros ->. apply strcmp_refl.
Qed.

(** ** The state query *)

(** C2: the state is computed from three members and from nothing else:
    it is Recording exactly when the capture thread handle is positive,
    otherwise Encoding exactly when the encoder thread handle is positive
    or the frame list pointer is not NULL, and Idle in the remaining
    case. *)
Theorem State_is_derived (c : Controller) :
  (State c = STATE_RECORDING <-> fCaptureThread c > 0) /\
  (State c = STATE_ENCODING <->
     ~ fCaptureThread c > 0 /\ (fEncoderThread c > 0 \/ fFileList c <> None)) /\
  (State c = STATE_IDLE <->
     ~ fCaptureThread c > 0 /\ ~ (fEncoderThread c > 0 \/ fFileList c <> None)).
Proof.
  unfold State.
  destruct (Z.gtb_spec (fCaptureThread c) 0) as [Hc|Hc];
    destruct (Z.gtb_spec (fEncoderThread c) 0) as [He|He];
    destruct (fFileList c) as [l|]; simpl;
    repeat split; intros; try discriminate; try lia; try tauto;
    try (intuition (try discriminate; try congruence; lia)).
Qed.

(** The state of two controllers that agree on the three members is the
    same, whatever their other members hold. *)
Lemma State_depends_on_three_members (c c' : Controller) :
  fCaptureThread c = fCaptureThread c' ->
  fEncoderThread c = fEncoderThread c' ->
  is_non_null (fFileList c) = is_non_null (fFileList c') ->
  State c = State c'.
Proof.
  unfold State. intros -> -> ->. reflexivity.
Qed.

Lemma State_idle_no_frames (c : Controller) :
  State c = STATE_IDLE -> fFileList c = None /\ fCaptureThread c <= 0.
Proof.
  unfold State.
  destruct (Z.gtb_spec (fCaptureThread c) 0); [discriminate|].
  destruct (fEncoderThread c >? 0); [discriminate|].
  destruct (fFileList c); [discriminate|]. split; [reflexivity|lia].
Qed.

Lemma State_recording (c : Controller) :
  State c = STATE_RECORDING <-> (fCaptureThread c >? 0) = true.
Proof.
  unfold State. destruct (fCaptureThread c >? 0).
  - split; reflexivity.
  - destruct (_ || _); split; discriminate.
Qed.

(** ** Toggling while an encoding is under way *)

(** C8: [ToggleCapture] in state Encoding returns the controller it was
    given: no member changes, no notice is sent, the worker component and
    the encoder are as before. *)
Theorem ToggleCapture_encoding_noop (env : Env) (c : Controller) :
  State c = STATE_ENCODING -> ToggleCapture env c = Done c.
Proof.
  intros H. unfold ToggleCapture. rewrite H. reflexivity.
Qed.

(** ** Average frame rate *)

Section AverageFPS.

Variable c : Controller.

Lemma RecordTime_without_watch (now : bigtime_t) :
  fRecordWatch c = None -> RecordTime now c = 0.
Proof. unfold RecordTime. intros ->. reflexivity. Qed.

Lemma AverageFPS_zero_time (t1 t2 : bigtime_t) :
  RecordTime t1 c = 0 -> AverageFPS t1 t2 c = Done 0.
Proof. unfold AverageFPS. intros ->. reflexivity. Qed.

(** The clock does not run backwards between the two readings, and the
    watch was started no later than the first: the division is never by
    zero. *)
Lemma AverageFPS_divides (t1 t2 : bigtime_t) :
  t1 <= t2 ->
  (forall w, fRecordWatch c = Some w -> fStart w <= t1) ->
  AverageFPS t1 t2 c <> DivideByZero.
Proof.
  intros Ht Hw. unfold AverageFPS, RecordTime.
  destruct (fRecordWatch c) as [w|]; simpl; [|discriminate].
  specialize (Hw w eq_refl). unfold ElapsedTime.
  destruct (fSuspendTime w =? 0).
  - destruct (Z.eqb_spec (t1 - fStart w) 0); [discriminate|].
    destruct (Z.eqb_spec (t2 - fStart w) 0); [lia|discriminate].
  - destruct (Z.eqb_spec (fSuspendTime w - fStart w) 0); discriminate.
Qed.

(** As long as the product fits 32 bits the value is the quotient. *)
Lemma AverageFPS_in_range (t : bigtime_t) :
  0 <= RecordedFrames c * 1000000 <= INT32_MAX ->
  0 < RecordTime t c ->
  AverageFPS t t c = Done (RecordedFrames c * 1000000 / RecordTime t c).
Proof.
  intros Hp Ht. unfold AverageFPS.
  destruct (Z.eqb_spec (RecordTime t c) 0); [lia|].
  rewrite (wrap32_small (RecordedFrames c * 1000000)) by (unfold INT32_MAX in *; lia).
  rewrite Z.quot_div_nonneg by lia.
  rewrite wrap32_small; [reflexivity|].
  assert (0 <= RecordedFrames c * 1000000 / RecordTime t c) by (apply Z.div_pos; lia).
  assert (RecordedFrames c * 1000000 / RecordTime t c <= RecordedFrames c * 1000000)
    by (apply Z.div_le_upper_bound; nia).
  lia.
Qed.

End AverageFPS.

(** C9, where the code departs from it: with 2148 frames recorded in
    214.8 s the elapsed time is not zero and the quotient of
    [recordedFrames * 1000000] by it is 10, yet the 32-bit product has
    wrapped and [AverageFPS] returns -9. *)
Theorem AverageFPS_wraps_at_2148_frames :
  RecordedFrames long_recording = 2148 /\
  RecordTime 300000000 long_recording = 214800000 /\
  RecordedFrames long_recording * 1000000 / RecordTime 300000000 long_recording = 10 /\
  AverageFPS 300000000 300000000 long_recording = Done (-9).
Proof.
  repeat split; vm_compute; reflexivity.
Qed.

(** ** Choosing the codec *)

Lemma SetMediaCodec_from_no_match (codecs : list media_codec_info)
    (codecName : string) (c : Controller) :
  (forall codec, In codec codecs ->
     (strcmp (pretty_name codec) codecName =? 0) = false) ->
  SetMediaCodec_from codecs codecName c = c.
Proof.
  induction codecs as [|codec rest IH]; simpl; intros H; [reflexivity|].
  rewrite (H codec) by (left; reflexivity).
  apply IH. intros x Hx. apply H. right. exact Hx.
Qed.

Lemma SetMediaCodec_from_first_match (before after : list media_codec_info)
    (codec : media_codec_info) (codecName : string) (c : Controller) :
  (forall x, In x before -> (strcmp (pretty_name x) codecName =? 0) = false) ->
  (strcmp (pretty_name codec) codecName =? 0) = true ->
  SetMediaCodec_from (before ++ codec :: after) codecName c = apply_codec codec c.
Proof.
  induction before as [|x before IH]; simpl; intros Hb Hc.
  - rewrite Hc. reflexivity.
  - rewrite (Hb x) by (left; reflexivity).
    apply IH; [|exact Hc]. intros y Hy. apply Hb. right. exact Hy.
Qed.

Lemma strcmp_differs (a b : string) :
  c_string a -> c_string b -> a <> b -> (strcmp a b =? 0) = false.
Proof.
  intros Ha Hb Hne. destruct (strcmp a b =? 0) eqn:E; [|reflexivity].
  exfalso. apply Hne. apply strcmp_0_iff; assumption.
Qed.

(** C10: with names that are C strings, [SetMediaCodec] given a name that
    no entry of the codec list bears returns the controller unchanged
    (encoder, settings and notices included); given a name that some
    entry bears, it applies the first such entry and no other: the
    encoder takes that codec, the settings take its pretty name, and the
    notices grow by the one CodecChanged message. *)
Theorem SetMediaCodec_exact_match (codecs : list media_codec_info)
    (codecName : string) (c : Controller) :
  fCodecList c = Some codecs ->
  c_string codecName ->
  (forall codec, In codec codecs -> c_string (pretty_name codec)) ->
  ((forall codec, In codec codecs -> pretty_name codec <> codecName) ->
     SetMediaCodec codecName c = Done c) /\
  (forall before codec after,
     codecs = (before ++ codec :: after)%list ->
     (forall x, In x before -> pretty_name x <> codecName) ->
     pretty_name codec = codecName ->
     exists c',
       SetMediaCodec codecName c = Done c' /\
       enc_codec (fEncoder c') = Some codec /\
       OutputCodec (settings c') = codecName /\
       notices c' = (notices c ++ [codec_changed_message codec])%list /\
       c' = SendNotices (codec_changed_message codec)
              (set_settings (mkSettings codecName)
                 (set_fEncoder (SetMediaCodecInfo codec (fEncoder c)) c))).
Proof.
  intros Hl Hn Hcs. unfold SetMediaCodec. rewrite Hl. split.
  - intros Hno. f_equal. apply SetMediaCodec_from_no_match.
    intros codec Hin. apply strcmp_differs; auto.
  - intros before codec after -> Hb Hc.
    exists (apply_codec codec c). split.
    + f_equal. apply SetMediaCodec_from_first_match.
      * intros x Hx. apply strcmp_differs; auto.
        apply Hcs. apply in_or_app. left. exact Hx.
      * rewrite Hc. rewrite strcmp_refl. reflexivity.
    + unfold apply_codec. rewrite Hc. repeat split.
Qed.

(** ** The capture worker leaves *)

Lemma CaptureThread_exit_handle (l : CaptureLocals) (c : Controller) :
  fCaptureThread (CaptureThread_exit l c) = -1 /\
  worker (CaptureThread_exit l c) = None /\
  fKillCaptureThread (CaptureThread_exit l c) = true.
Proof.
  unfold CaptureThread_exit. destruct (negb (error l =? B_OK)); repeat split.
Qed.

Lemma not_recording_when_cleared (c : Controller) :
  fCaptureThread c = -1 -> State c <> STATE_RECORDING.
Proof.
  intros H Hs. apply State_recording in Hs. rewrite H in Hs. discriminate.
Qed.

(** The three ways out of the loop, each met by a turn of the worker. *)
Lemma worker_leaves_on_kill (s : Snapshot) (l : CaptureLocals) (c : Controller) :
  worker c = Some l -> fKillCaptureThread c = true ->
  CaptureThread_step s c = Done (CaptureThread_exit l c).
Proof.
  intros Hw Hk. unfold CaptureThread_step. rewrite Hw, Hk. reflexivity.
Qed.

Lemma worker_leaves_on_read_error (s : Snapshot) (l : CaptureLocals) (c : Controller) :
  worker c = Some l -> fKillCaptureThread c = false -> fPaused c = false ->
  snap_ReadBitmap s <> B_OK ->
  CaptureThread_step s c = Done (CaptureThread_exit (mkLocals (snap_ReadBitmap s)) c).
Proof.
  intros Hw Hk Hp Hr. unfold CaptureThread_step, capture_pass.
  rewrite Hw, Hk, Hp. simpl.
  destruct (Z.eqb_spec (snap_ReadBitmap s) B_OK); [contradiction|reflexivity].
Qed.

Lemma worker_leaves_on_append_error (s : Snapshot) (l : CaptureLocals)
    (frames : FramesList) (c : Controller) :
  worker c = Some l -> fKillCaptureThread c = false -> fPaused c = false ->
  snap_ReadBitmap s = B_OK -> snap_AddItem s = false ->
  fFileList c = Some frames ->
  CaptureThread_step s c =
    Done (CaptureThread_exit (mkLocals B_NO_MEMORY) (set_fFileList (Some frames) c)).
Proof.
  intros Hw Hk Hp Hr Ha Hf. unfold CaptureThread_step, capture_pass, AddItem.
  rewrite Hw, Hk, Hp. simpl. rewrite Hr, Ha, Hf. reflexivity.
Qed.

Lemma CaptureThread_step_exit (s : Snapshot) (c c' : Controller) :
  worker c <> None -> CaptureThread_step s c = Done c' -> worker c' = None ->
  exists l c0, c' = CaptureThread_exit l c0.
Proof.
  unfold CaptureThread_step. intros Hw Hs Hn.
  destruct (worker c) as [l|] eqn:Hl; [|contradiction].
  destruct (fKillCaptureThread c).
  { injection Hs as <-. eauto. }
  destruct (fPaused c); simpl in Hs.
  { injection Hs as <-. rewrite Hl in Hn. discriminate. }
  destruct (capture_pass s l c) as [[[c1 l1] [|]]| | | |]; simpl in Hs;
    try discriminate; injection Hs as <-.
  - eauto.
  - simpl in Hn. discriminate.
Qed.

Lemma wait_for_thread_exit (in_flight : option Snapshot) (c c' : Controller) :
  worker c <> None -> wait_for_thread in_flight c = Done c' ->
  exists l c0, c' = CaptureThread_exit l c0.
Proof.
  unfold wait_for_thread. intros Hw Hs.
  destruct (worker c) as [l|]; [|contradiction].
  destruct (match in_flight with
            | Some s => capture_pass s l c
            | None => Done (c, l, false)
            end) as [[[c1 l1] [|]]| | | |]; simpl in Hs; try discriminate.
  - injection Hs as <-. eauto.
  - destruct (fKillCaptureThread c1); [|discriminate].
    injection Hs as <-. eauto.
Qed.

(** C6: whenever the capture worker terminates, be it in a turn of its
    own (the loop condition finds the kill flag set, the screen read
    fails, the frame store refuses the frame) or while the controller
    waits for it, the controller it leaves behind has its capture thread
    handle at -1, and [State] does not answer Recording. *)
Theorem capture_worker_exit_clears_handle (c c' : Controller) :
  worker c <> None ->
  (exists s, CaptureThread_step s c = Done c') \/
  (exists in_flight, wait_for_thread in_flight c = Done c') ->
  worker c' = None ->
  fCaptureThread c' = -1 /\ State c' <> STATE_RECORDING.
Proof.
  intros Hw Hrun Hgone.
  assert (exists l c0, c' = CaptureThread_exit l c0) as (l & c0 & ->).
  { destruct Hrun as [[s Hs]|[f Hf]].
    - eapply CaptureThread_step_exit; eassumption.
    - eapply wait_for_thread_exit; eassumption. }
  destruct (CaptureThread_exit_handle l c0) as (H & _ & _).
  split; [exact H|]. apply not_recording_when_cleared. exact H.
Qed.

(** Over any number of turns: a worker that was there at the start and is
    gone at the end has cleared the handle. *)
Lemma CaptureThread_run_clears_handle (passes : list Snapshot) (c c' : Controller) :
  worker c <> None \/ fCaptureThread c = -1 ->
  CaptureThread_run passes c = Done c' ->
  worker c' = None -> fCaptureThread c' = -1.
Proof.
  revert c. induction passes as [|s rest IH]; simpl; intros c Hc Hrun Hgone.
  - injection Hrun as <-. destruct Hc as [Hc|Hc]; [contradiction|exact Hc].
  - destruct (CaptureThread_step s c) as [c1| | | |] eqn:Hs; simpl in Hrun;
      try discriminate.
    apply (IH c1); [|exact Hrun|exact Hgone].
    destruct (worker c1) eqn:Hw1; [left; discriminate|right].
    destruct (worker c) eqn:Hw.
    + assert (worker c <> None) as Hne by (rewrite Hw; discriminate).
      destruct (CaptureThread_step_exit s c c1 Hne Hs Hw1) as (lx & cx & ->).
      apply CaptureThread_exit_handle.
    + unfold CaptureThread_step in Hs. rewrite Hw in Hs. injection Hs as <-.
      destruct Hc as [Hc|Hc]; [contradiction|exact Hc].
Qed.

(** ** Cancelling a recording *)

(** Cancelling never reaches the encoder: it has as many workers after as
    before, and the same source. *)
Lemma Cancel_recording_spares_encoder (env : Env) (c c' : Controller) :
  State c = STATE_RECORDING -> Cancel env c = Done c' ->
  fEncoder c' = fEncoder c /\ fEncoderThread c' = fEncoderThread c.
Proof.
  intros Hs. unfold Cancel. rewrite Hs.
  unfold wait_for_thread, capture_pass, CaptureThread_exit, AddItem.
  repeat (simpl; break_match); simpl; intros H; try discriminate;
    injection H as <-; split; reflexivity.
Qed.

(** A worker whose last pass went well keeps the store when it is told
    to leave, and [Cancel] does not discard it either. *)
Lemma Cancel_after_good_pass (env : Env) (c : Controller) (frames : FramesList) :
  State c = STATE_RECORDING ->
  worker c = Some (mkLocals B_OK) ->
  fFileList c = Some frames ->
  env_in_flight env = None ->
  exists c', Cancel env c = Done c' /\
             fFileList c' = Some frames /\
             State c' = STATE_ENCODING.
Proof.
  intros Hs Hw Hf Hi. unfold Cancel. rewrite Hs.
  unfold wait_for_thread. simpl. rewrite Hw, Hi. simpl.
  eexists. split; [reflexivity|]. unfold CaptureThread_exit, State. simpl.
  rewrite Hf. split; [reflexivity|].
  destruct (fEncoderThread c >? 0); reflexivity.
Qed.

(** C1, where the code departs from it: a recording is started, the
    worker stores one frame, and [Cancel] is called.  The call returns
    with the frame still in the store, which has not been discarded, and
    with [State] answering Encoding although no encoder runs. *)
Theorem Cancel_recording_keeps_frames :
  exists c c',
    one_frame_in = Done c /\
    State c = STATE_RECORDING /\
    fNumFrames c = 1 /\
    Cancel calm c = Done c' /\
    fFileList c' = Some [mkBitmapEntry 0 2000] /\
    State c' = STATE_ENCODING /\
    fEncoderThread c' = -1 /\
    encode_workers (fEncoder c') = 0%nat.
Proof.
  eexists. eexists.
  split; [vm_compute; reflexivity|].
  repeat split; vm_compute; reflexivity.
Qed.

(** ** Ending a recording without frames *)

(** The branch of [EncodeMovie] for an empty store, taken alone: one
    EncodeFinished notice with status [B_ERROR], no encode worker, the
    store deleted. *)
Lemma EncodeMovie_empty_store (env : Env) (c : Controller) (frames : FramesList) :
  fFileList c = Some frames -> CountItems frames <= 0 ->
  exists c', EncodeMovie env c = Done c' /\
    notices c' = (notices c ++ [encode_finished_message env B_ERROR None])%list /\
    encode_finished_message env B_ERROR None =
      mkBMessage kMsgControllerEncodeFinished [("status"%string, FInt32 B_ERROR)] /\
    fEncoder c' = fEncoder c /\
    fEncoderThread c' = -1 /\
    fFileList c' = None.
Proof.
  intros Hf Hn. unfold EncodeMovie. rewrite Hf.
  destruct (Z.leb_spec (CountItems frames) 0); [|lia].
  eexists. split; [reflexivity|]. repeat split.
Qed.

(** A worker that has not read a frame yet holds [B_ERROR]; told to leave
    at the head of its loop it deletes the store, and [EndCapture] then
    reaches [CountItems] through the NULL pointer. *)
Lemma EndCapture_before_first_frame (env : Env) (c : Controller) (l : CaptureLocals) :
  fCaptureThread c > 0 ->
  worker c = Some l -> error l <> B_OK ->
  env_in_flight env = None ->
  fRecordWatch c <> None ->
  EndCapture env c = NullDeref.
Proof.
  intros Hc Hw He Hi Hr. unfold EndCapture.
  destruct (Z.gtb_spec (fCaptureThread c) 0); [|lia].
  unfold wait_for_thread. simpl. rewrite Hw, Hi. simpl.
  unfold CaptureThread_exit. simpl.
  destruct (Z.eqb_spec (error l) B_OK); [contradiction|]. simpl.
  destruct (fRecordWatch c); [|contradiction]. reflexivity.
Qed.

(** C3, where the code departs from it: a recording is started and
    toggled off before the worker has stored a frame.  The store is empty
    when [ToggleCapture] is called; the worker, on leaving, reports
    [B_ERROR] and deletes the store, and [EndCapture] goes on to
    [EncodeMovie], which dereferences the NULL [fFileList].  No
    EncodeFinished notice is sent. *)
Theorem EndCapture_without_frames_null_deref :
  exists c,
    just_started = Done c /\
    State c = STATE_RECORDING /\
    fFileList c = Some [] /\
    fNumFrames c = 0 /\
    notices c = [mkBMessage kMsgControllerCaptureStarted []] /\
    ToggleCapture calm c = NullDeref.
Proof.
  eexists. split; [vm_compute; reflexivity|].
  repeat split; vm_compute; reflexivity.
Qed.

(** ** Starting a recording *)

Lemma capture_stopped_is_not_started (status : status_t) :
  capture_stopped_message status <> capture_started_message.
Proof. discriminate. Qed.

Lemma StartCapture_launch_started (env : Env) (c c' : Controller) :
  StartCapture_launch env c = Done c' -> started c c' ->
  fRequestedRecordTime c' = 0 /\
  fStopRunner c' =
    (if fRequestedRecordTime c =? 0 then None
     else Some (auto_stop_runner (fRequestedRecordTime c))) /\
  fNumFrames c' = fNumFrames c /\
  worker c' = Some (mkLocals B_ERROR) /\
  fRecordWatch c' = Some (new_BStopWatch (env_now env)) /\
  fCaptureThread c' = env_spawn_thread env /\
  fKillCaptureThread c' = false /\
  fPaused c' = false /\
  fFileList c' = fFileList c.
Proof.
  unfold StartCapture_launch, started. simpl.
  destruct (env_spawn_thread env <? 0).
  { intros H; injection H as <-. simpl. intros Hn.
    apply app_inv_head in Hn. discriminate. }
  destruct (env_resume_thread env <? B_OK).
  { intros H; injection H as <-. simpl. intros Hn.
    apply app_inv_head in Hn. discriminate. }
  destruct (Z.eqb_spec (fRequestedRecordTime c) 0) as [E|E];
    simpl; intros H; injection H as <-; simpl; intros _;
    repeat split; try assumption; reflexivity.
Qed.

Lemma StartCapture_started (env : Env) (c c' : Controller) :
  StartCapture env c = Done c' -> started c c' ->
  fRequestedRecordTime c' = 0 /\
  fStopRunner c' =
    (if fRequestedRecordTime c =? 0 then None
     else Some (auto_stop_runner (fRequestedRecordTime c))) /\
  fNumFrames c' = 0 /\
  worker c' = Some (mkLocals B_ERROR) /\
  fRecordWatch c' = Some (new_BStopWatch (env_now env)) /\
  fCaptureThread c' = env_spawn_thread env /\
  fKillCaptureThread c' = false /\
  fPaused c' = false /\
  (fFileList c = None -> fFileList c' = Some new_FramesList).
Proof.
  unfold StartCapture. simpl. intros H Hn.
  destruct (fFileList c) as [frames|] eqn:Hf.
  - apply StartCapture_launch_started in H; [|exact Hn].
    simpl in H. intuition discriminate.
  - destruct (env_new_FramesList env) as [thrown|].
    + injection H as <-. unfold started in Hn. simpl in Hn.
      apply app_inv_head in Hn. discriminate.
    + apply StartCapture_launch_started in H; [|exact Hn].
      simpl in H. intuition.
Qed.

(** C5 does not hold as stated: from the Idle controller left by a
    recording that ended on a read error, a [StartCapture] whose frame
    store cannot be set up leaves the state Idle and sends the
    CaptureStopped notice, but the frame count has gone from 1 to 0. *)
Lemma StartCapture_failure_resets_frame_count :
  exists c c',
    after_failed_read = Done c /\
    State c = STATE_IDLE /\
    fNumFrames c = 1 /\
    StartCapture no_storage c = Done c' /\
    State c' = STATE_IDLE /\
    fNumFrames c' = 0 /\
    c' <> SendNotices (capture_stopped_message B_NO_MEMORY) c.
Proof.
  eexists. eexists. split; [vm_compute; reflexivity|].
  repeat split; try (vm_compute; reflexivity).
  vm_compute. discriminate.
Qed.

(** C5, amended: [StartCapture] entered in state Idle.  When the frame
    store cannot be set up, the outcome is the controller it was given
    with the frame count at 0 and one CaptureStopped notice carrying the
    error added, and nothing else changed: the state is still Idle and no
    thread has been spawned.  When it can, the store of the new recording
    is a fresh, empty one. *)
Theorem StartCapture_from_idle (env : Env) (c : Controller) :
  State c = STATE_IDLE ->
  (forall thrown, env_new_FramesList env = Some thrown ->
     StartCapture env c =
       Done (SendNotices (capture_stopped_message thrown) (set_fNumFrames 0 c)) /\
     State (SendNotices (capture_stopped_message thrown) (set_fNumFrames 0 c))
       = STATE_IDLE /\
     worker (SendNotices (capture_stopped_message thrown) (set_fNumFrames 0 c))
       = worker c) /\
  (env_new_FramesList env = None ->
     exists c', StartCapture env c = Done c' /\
                fFileList c' = Some new_FramesList /\
                CountItems new_FramesList = 0 /\
                fNumFrames c' = 0).
Proof.
  intros Hs. destruct (State_idle_no_frames c Hs) as [Hf Hc]. split.
  - intros thrown Ht. unfold StartCapture. simpl. rewrite Hf, Ht.
    split; [reflexivity|]. split; [|reflexivity]. exact Hs.
  - intros Ht. unfold StartCapture, StartCapture_launch. simpl. rewrite Hf, Ht. simpl.
    repeat (simpl; break_match); eexists; (split; [reflexivity|]);
      repeat split.
Qed.

Lemma StartCapture_from_idle_witness :
  exists c, after_failed_read = Done c /\
    State c = STATE_IDLE /\
    StartCapture no_storage c =
      Done (SendNotices (capture_stopped_message B_NO_MEMORY) (set_fNumFrames 0 c)) /\
    exists c', StartCapture calm c = Done c' /\ fFileList c' = Some new_FramesList.
Proof.
  eexists. split; [vm_compute; reflexivity|].
  match goal with |- State ?c = _ /\ _ =>
    assert (State c = STATE_IDLE) as Hs by (vm_compute; reflexivity);
    destruct (StartCapture_from_idle no_storage c Hs) as [Hfail _];
    destruct (StartCapture_from_idle calm c Hs) as [_ Hok]
  end.
  split; [exact Hs|]. split.
  - apply (Hfail B_NO_MEMORY). reflexivity.
  - destruct (Hok eq_refl) as (c' & H1 & H2 & _). exists c'. split; assumption.
Defined.

(** ** The requested recording time *)

Lemma wait_for_thread_keeps_time (f : option Snapshot) (c c' : Controller) :
  wait_for_thread f c = Done c' ->
  fRequestedRecordTime c' = fRequestedRecordTime c.
Proof.
  unfold wait_for_thread, capture_pass, CaptureThread_exit, AddItem.
  by_cases_of_code.
Qed.

Lemma CaptureThread_step_keeps_time (s : Snapshot) (c c' : Controller) :
  CaptureThread_step s c = Done c' ->
  fRequestedRecordTime c' = fRequestedRecordTime c.
Proof.
  unfold CaptureThread_step, capture_pass, CaptureThread_exit, AddItem.
  by_cases_of_code.
Qed.

Lemma EncodeMovie_keeps_time (env : Env) (c c' : Controller) :
  EncodeMovie env c = Done c' ->
  fRequestedRecordTime c' = fRequestedRecordTime c.
Proof.
  unfold EncodeMovie, _EncodingFinished. by_cases_of_code.
Qed.

Lemma EndCapture_keeps_time (env : Env) (c c' : Controller) :
  EndCapture env c = Done c' ->
  fRequestedRecordTime c' = fRequestedRecordTime c.
Proof.
  unfold EndCapture.
  destruct (fCaptureThread c >? 0); simpl.
  - destruct (wait_for_thread _ _) as [c1| | | |] eqn:Hw; simpl; try discriminate.
    apply wait_for_thread_keeps_time in Hw. simpl in Hw.
    destruct (fRecordWatch c1); [|discriminate].
    intros H. apply EncodeMovie_keeps_time in H. simpl in H. congruence.
  - destruct (fRecordWatch c); [|discriminate].
    intros H. apply EncodeMovie_keeps_time in H. exact H.
Qed.

Lemma Cancel_keeps_time (env : Env) (c c' : Controller) :
  Cancel env c = Done c' ->
  fRequestedRecordTime c' = fRequestedRecordTime c.
Proof.
  unfold Cancel. destruct (State c); simpl.
  - intros H; injection H as <-. reflexivity.
  - destruct (wait_for_thread _ _) as [c1| | | |] eqn:Hw; simpl; try discriminate.
    apply wait_for_thread_keeps_time in Hw.
    intros H; injection H as <-. exact Hw.
  - intros H; injection H as <-. reflexivity.
Qed.

Lemma TogglePause_keeps_time (env : Env) (c c' : Controller) :
  TogglePause env c = Done c' ->
  fRequestedRecordTime c' = fRequestedRecordTime c.
Proof.
  unfold TogglePause, _ResumeCapture, _PauseCapture. by_cases_of_code.
Qed.

Lemma SetMediaCodec_from_keeps_time (codecs : list media_codec_info)
    (codecName : string) (c : Controller) :
  fRequestedRecordTime (SetMediaCodec_from codecs codecName c)
    = fRequestedRecordTime c.
Proof.
  induction codecs as [|codec rest IH]; simpl; [reflexivity|].
  destruct (strcmp (pretty_name codec) codecName =? 0); [reflexivity|exact IH].
Qed.

Lemma StartCapture_keeps_time_zero (env : Env) (c c' : Controller) :
  StartCapture env c = Done c' ->
  fRequestedRecordTime c = 0 -> fRequestedRecordTime c' = 0.
Proof.
  unfold StartCapture, StartCapture_launch. by_cases_of_code;
    intros; simpl in *; auto.
Qed.

(** Nothing but [SetRecordingTime] makes the requested time non-zero. *)
Lemma exec_keeps_time_zero (cmd : command) (c c' : Controller) :
  sets_recording_time cmd = false ->
  exec cmd c = Done c' ->
  fRequestedRecordTime c = 0 -> fRequestedRecordTime c' = 0.
Proof.
  destruct cmd; simpl; intros Hcmd Hrun H0; try discriminate.
  - unfold ToggleCapture in Hrun. destruct (State c).
    + eapply StartCapture_keeps_time_zero; eassumption.
    + apply EndCapture_keeps_time in Hrun. congruence.
    + injection Hrun as <-. exact H0.
  - apply TogglePause_keeps_time in Hrun. congruence.
  - injection Hrun as <-. exact H0.
  - apply Cancel_keeps_time in Hrun. congruence.
  - unfold SetMediaCodec in Hrun. destruct (fCodecList c); [|discriminate].
    injection Hrun as <-. rewrite SetMediaCodec_from_keeps_time. exact H0.
  - apply CaptureThread_step_keeps_time in Hrun. congruence.
Qed.

Lemma run_keeps_time_zero (cmds : list command) (c c' : Controller) :
  forallb (fun cmd => negb (sets_recording_time cmd)) cmds = true ->
  run cmds c = Done c' ->
  fRequestedRecordTime c = 0 -> fRequestedRecordTime c' = 0.
Proof.
  revert c. induction cmds as [|cmd rest IH]; simpl; intros c Hall Hrun H0.
  - injection Hrun as <-. exact H0.
  - apply andb_prop in Hall. destruct Hall as [Hcmd Hrest].
    destruct (exec cmd c) as [c1| | | |] eqn:He; simpl in Hrun; try discriminate.
    apply (IH c1 Hrest Hrun).
    apply (exec_keeps_time_zero cmd c c1); [|exact He|exact H0].
    destruct (sets_recording_time cmd); [discriminate|reflexivity].
Qed.

(** C4: [SetRecordingTime] returns the controller unchanged once the
    capture thread handle is positive; otherwise it stores the duration
    and changes nothing else.  A [StartCapture] that then gets the
    recording going arms, for a duration other than 0, a runner that
    posts the toggle message once after that duration, and leaves the
    stored duration at 0; whatever happens next short of another
    [SetRecordingTime], a later start arms no runner. *)
Theorem SetRecordingTime_arms_one_auto_stop (msecs : bigtime_t) (c : Controller) :
  (fCaptureThread c > 0 -> SetRecordingTime msecs c = c) /\
  (~ fCaptureThread c > 0 ->
     SetRecordingTime msecs c = set_fRequestedRecordTime msecs c /\
     forall env c1,
       StartCapture env (SetRecordingTime msecs c) = Done c1 ->
       started (SetRecordingTime msecs c) c1 ->
       (msecs <> 0 ->
          fStopRunner c1 = Some (mkBMessageRunner kMsgGUIToggleCapture msecs 1)) /\
       fRequestedRecordTime c1 = 0 /\
       forall cmds c2 env' c3,
         forallb (fun cmd => negb (sets_recording_time cmd)) cmds = true ->
         run cmds c1 = Done c2 ->
         StartCapture env' c2 = Done c3 ->
         started c2 c3 ->
         fStopRunner c3 = None /\ fRequestedRecordTime c3 = 0).
Proof.
  unfold SetRecordingTime. split.
  - intros H. destruct (Z.gtb_spec (fCaptureThread c) 0); [reflexivity|lia].
  - intros H. destruct (Z.gtb_spec (fCaptureThread c) 0); [lia|].
    split; [reflexivity|].
    intros env c1 Hstart Hnotice.
    destruct (StartCapture_started env _ c1 Hstart Hnotice) as (Hz & Hr & _).
    simpl in Hr. split; [|split].
    + intros Hm. rewrite Hr. destruct (Z.eqb_spec msecs 0); [contradiction|].
      reflexivity.
    + exact Hz.
    + intros cmds c2 env' c3 Hall Hrun Hstart' Hnotice'.
      pose proof (run_keeps_time_zero cmds c1 c2 Hall Hrun Hz) as Hz2.
      destruct (StartCapture_started env' c2 c3 Hstart' Hnotice') as (Hz3 & Hr3 & _).
      rewrite Hz2 in Hr3. simpl in Hr3. split; assumption.
Qed.

Lemma SetRecordingTime_arms_one_auto_stop_witness :
  StartCapture calm (SetRecordingTime 2000000 initial_Controller) = Done timed_recording /\
  fStopRunner timed_recording = Some (mkBMessageRunner kMsgGUIToggleCapture 2000000 1) /\
  fRequestedRecordTime timed_recording = 0 /\
  run session_between timed_recording = Done idle_again /\
  StartCapture calm idle_again = Done second_recording /\
  fStopRunner second_recording = None.
Proof.
  assert (StartCapture calm (SetRecordingTime 2000000 initial_Controller)
          = Done timed_recording) as H1 by (vm_compute; reflexivity).
  assert (run session_between timed_recording = Done idle_again) as H2
    by (vm_compute; reflexivity).
  assert (StartCapture calm idle_again = Done second_recording) as H3
    by (vm_compute; reflexivity).
  destruct (SetRecordingTime_arms_one_auto_stop 2000000 initial_Controller)
    as [_ Hidle].
  assert (~ fCaptureThread initial_Controller > 0) as Hnot by (vm_compute; discriminate).
  destruct (Hidle Hnot) as [_ Hstart].
  assert (started (SetRecordingTime 2000000 initial_Controller) timed_recording) as Hs1
    by (vm_compute; reflexivity).
  destruct (Hstart calm timed_recording H1 Hs1) as (Harm & Hzero & Hlater).
  assert (started idle_again second_recording) as Hs3 by (vm_compute; reflexivity).
  destruct (Hlater session_between idle_again calm second_recording
              eq_refl H2 H3 Hs3) as [Hnone _].
  assert (2000000 <> 0) as Hne by discriminate.
  split; [exact H1|]. split; [exact (Harm Hne)|]. split; [exact Hzero|].
  split; [exact H2|]. split; [exact H3|exact Hnone].
Defined.

(** ** The frame count during a recording *)

Lemma CountItems_AddItem (frames : FramesList) (bitmap : nat) (time : bigtime_t) :
  CountItems (snd (AddItem true bitmap time frames)) = CountItems frames + 1.
Proof.
  unfold CountItems, AddItem. simpl. rewrite length_app. simpl. lia.
Qed.

(** A turn of the worker either stores one frame and adds one to the
    count, or leaves both the frames stored and the count as they are
    (the store itself being deleted when the worker leaves on an
    error). *)
Lemma worker_turn_counts (s : Snapshot) (c c' : Controller) (frames : FramesList) :
  fFileList c = Some frames ->
  CaptureThread_step s c = Done c' ->
  (fFileList c' = Some (frames ++ [mkBitmapEntry (snap_bitmap s) (snap_time s)])%list /\
   fNumFrames c' = wrap32 (fNumFrames c + 1)) \/
  ((fFileList c' = Some frames \/ fFileList c' = None) /\
   fNumFrames c' = fNumFrames c).
Proof.
  intros Hf. unfold CaptureThread_step, capture_pass, CaptureThread_exit, AddItem.
  rewrite Hf.
  repeat (simpl; break_match); simpl; intros H; try discriminate;
    injection H as <-; simpl; rewrite ?Hf; auto;
    repeat match goal with
           | H : Done _ = Done _ |- _ => injection H as <- <- <-
           | H : (_, _) = (_, _) |- _ => injection H as <- <-
           | H : Done _ = _ |- _ => discriminate H
           end; simpl; rewrite ?Hf; auto.
Qed.









(** ** Instances *)

Lemma ToggleCapture_encoding_noop_witness :
  State encoding_one_frame = STATE_ENCODING /\
  fEncoderThread encoding_one_frame = 78 /\
  ToggleCapture calm encoding_one_frame = Done encoding_one_frame.
Proof.
  assert (State encoding_one_frame = STATE_ENCODING) as H by reflexivity.
  split; [exact H|]. split; [reflexivity|].
  exact (ToggleCapture_encoding_noop calm encoding_one_frame H).
Defined.

Lemma some_codecs_c_strings :
  forall codec, In codec some_codecs -> c_string (pretty_name codec).
Proof.
  intros codec [<-|[<-|[<-|[]]]]; simpl; repeat split; discriminate.
Qed.

Lemma SetMediaCodec_exact_match_witness :
  SetMediaCodec "Theora" with_codecs = Done with_codecs /\
  exists c',
    SetMediaCodec "Raw video" with_codecs = Done c' /\
    enc_codec (fEncoder c') = Some (mkCodec "Raw video" "raw" 2) /\
    OutputCodec (settings c') = "Raw video"%string /\
    notices c' = [codec_changed_message (mkCodec "Raw video" "raw" 2)].
Proof.
  split.
  - destruct (SetMediaCodec_exact_match some_codecs "Theora" with_codecs)
      as [Hno _].
    + reflexivity.
    + simpl. repeat split; discriminate.
    + exact some_codecs_c_strings.
    + apply Hno. intros codec [<-|[<-|[<-|[]]]]; discriminate.
  - destruct (SetMediaCodec_exact_match some_codecs "Raw video" with_codecs)
      as [_ Hyes].
    + reflexivity.
    + simpl. repeat split; discriminate.
    + exact some_codecs_c_strings.
    + destruct (Hyes [mkCodec "Motion JPEG" "mjpeg" 1]
                  (mkCodec "Raw video" "raw" 2)
                  [mkCodec "Raw video" "raw-alt" 3])
        as (c' & H1 & H2 & H3 & H4 & _).
      * reflexivity.
      * intros x [<-|[]]. discriminate.
      * reflexivity.
      * exists c'. repeat split; assumption.
Defined.

Lemma capture_worker_exit_clears_handle_witness :
  worker fresh_recording <> None /\
  CaptureThread_step failed_read fresh_recording = Done read_failed /\
  worker read_failed = None /\
  fCaptureThread read_failed = -1 /\
  State read_failed <> STATE_RECORDING.
Proof.
  assert (worker fresh_recording <> None) as H1 by discriminate.
  assert (CaptureThread_step failed_read fresh_recording = Done read_failed) as H2
    by (vm_compute; reflexivity).
  assert (worker read_failed = None) as H3 by reflexivity.
  split; [exact H1|]. split; [exact H2|]. split; [exact H3|].
  apply (capture_worker_exit_clears_handle fresh_recording read_failed H1).
  - left. exists failed_read. exact H2.
  - exact H3.
Defined.

(** * Further properties of the controller *)

(** ** Quitting *)

Lemma State_encoding_with_store (c : Controller) (frames : FramesList) :
  fFileList c = Some frames -> fCaptureThread c <= 0 -> State c = STATE_ENCODING.
Proof.
  intros Hf Hc. unfold State. rewrite Hf.
  destruct (Z.gtb_spec (fCaptureThread c) 0); [lia|].
  rewrite orb_true_r. reflexivity.
Qed.

(** X1: whenever [QuitRequested] agrees to quit, the state is Idle and
    [CanQuit] answers yes, leaving the reason alone; [CanQuit] answers no
    with its reason in the other two states.  The converse holds as soon
    as neither thread handle is 0. *)
Theorem quit_only_when_idle (reason : string) (c : Controller) :
  (QuitRequested c = true -> State c = STATE_IDLE /\ CanQuit reason c = (true, reason)) /\
  (fst (CanQuit reason c) = true <-> State c = STATE_IDLE) /\
  (State c = STATE_RECORDING ->
     CanQuit reason c = (false, "Recording in progress."%string)) /\
  (State c = STATE_ENCODING ->
     CanQuit reason c = (false, "Encoding in progress."%string)) /\
  (State c = STATE_IDLE -> fCaptureThread c <> 0 -> fEncoderThread c <> 0 ->
     QuitRequested c = true).
Proof.
  unfold QuitRequested, CanQuit, State.
  destruct (Z.ltb_spec (fCaptureThread c) 0);
    destruct (Z.gtb_spec (fCaptureThread c) 0); try lia;
    destruct (Z.ltb_spec (fEncoderThread c) 0);
    destruct (Z.gtb_spec (fEncoderThread c) 0); try lia;
    destruct (fFileList c); simpl;
    repeat split; intros; try discriminate; try reflexivity; try lia.
Qed.

(** ** A store that is left behind *)

Lemma SetMediaCodec_from_keeps (codecs : list media_codec_info)
    (codecName : string) (c : Controller) :
  let c' := SetMediaCodec_from codecs codecName c in
  fFileList c' = fFileList c /\ fCaptureThread c' = fCaptureThread c /\
  worker c' = worker c /\ fEncoderThread c' = fEncoderThread c /\
  fNumFrames c' = fNumFrames c /\
  encode_workers (fEncoder c') = encode_workers (fEncoder c).
Proof.
  induction codecs as [|codec rest IH]; simpl; [repeat split|].
  destruct (strcmp (pretty_name codec) codecName =? 0); [repeat split|exact IH].
Qed.

Lemma exec_abandoned (cmd : command) (frames : FramesList) (c c' : Controller) :
  abandoned frames c -> exec cmd c = Done c' ->
  abandoned frames c' /\
  encode_workers (fEncoder c') = encode_workers (fEncoder c).
Proof.
  intros (Hf & Hc & Hw) Hrun.
  pose proof (State_encoding_with_store c frames Hf Hc) as Hs.
  unfold abandoned. destruct cmd; simpl in Hrun.
  - unfold ToggleCapture in Hrun. rewrite Hs in Hrun.
    injection Hrun as <-. repeat split; assumption.
  - unfold TogglePause, _ResumeCapture, _PauseCapture in Hrun.
    destruct (fCaptureThread c <? 0).
    { injection Hrun as <-. repeat split; assumption. }
    destruct (fPaused c); simpl in Hrun;
      destruct (fRecordWatch c); try discriminate;
      injection Hrun as <-; simpl; repeat split; assumption.
  - injection Hrun as <-. simpl. repeat split; assumption.
  - unfold Cancel in Hrun. rewrite Hs in Hrun.
    injection Hrun as <-. simpl. repeat split; assumption.
  - injection Hrun as <-. unfold SetRecordingTime.
    destruct (fCaptureThread c >? 0); simpl; repeat split; assumption.
  - unfold SetMediaCodec in Hrun. destruct (fCodecList c); [|discriminate].
    injection Hrun as <-.
    destruct (SetMediaCodec_from_keeps l codecName c) as (H1 & H2 & H3 & _ & _ & H6).
    rewrite H1, H2, H3. repeat split; assumption.
  - unfold CaptureThread_step in Hrun. rewrite Hw in Hrun.
    injection Hrun as <-. repeat split; assumption.
Qed.

Lemma run_abandoned (cmds : list command) (frames : FramesList) (c c' : Controller) :
  abandoned frames c -> run cmds c = Done c' ->
  abandoned frames c' /\
  encode_workers (fEncoder c') = encode_workers (fEncoder c).
Proof.
  revert c. induction cmds as [|cmd rest IH]; simpl; intros c Ha Hrun.
  - injection Hrun as <-. split; [exact Ha|reflexivity].
  - destruct (exec cmd c) as [c1| | | |] eqn:He; simpl in Hrun; try discriminate.
    destruct (exec_abandoned cmd frames c c1 Ha He) as [Ha1 He1].
    destruct (IH c1 Ha1 Hrun) as [Ha' He']. split; [exact Ha'|congruence].
Qed.

Lemma abandoned_refuses (frames : FramesList) (c : Controller) :
  abandoned frames c -> State c = STATE_ENCODING /\ QuitRequested c = false.
Proof.
  intros (Hf & Hc & _). split.
  - eapply State_encoding_with_store; eassumption.
  - unfold QuitRequested. rewrite Hf. simpl. rewrite andb_false_r. reflexivity.
Qed.

Lemma run_abandoned_refuses (cmds : list command)
    (frames : FramesList) (c c' : Controller) :
  abandoned frames c -> run cmds c = Done c' ->
  State c' = STATE_ENCODING /\ QuitRequested c' = false.
Proof.
  intros Ha Hrun.
  destruct (run_abandoned cmds frames c c' Ha Hrun) as [Ha' _].
  exact (abandoned_refuses frames c' Ha').
Qed.

(** X2: once frames are held while the capture thread handle is not
    positive and no worker runs, no sequence of messages, calls and
    worker turns releases them: after any run that goes through, the same
    frames are still held, the state is Encoding, [QuitRequested] refuses,
    and the encoder has been given no further worker. *)
Theorem abandoned_store_is_never_released (cmds : list command)
    (frames : FramesList) (c c' : Controller) :
  abandoned frames c ->
  run cmds c = Done c' ->
  fFileList c' = Some frames /\
  State c' = STATE_ENCODING /\
  QuitRequested c' = false /\
  encode_workers (fEncoder c') = encode_workers (fEncoder c).
Proof.
  intros Ha Hrun.
  destruct (run_abandoned cmds frames c c' Ha Hrun) as [Ha' He].
  destruct (abandoned_refuses frames c' Ha') as [Hs Hq].
  destruct Ha' as (Hf & _). repeat split; assumption.
Qed.

(** ** Starts that fail after the store is set up *)

(** X3: [ToggleCapture] in state Idle, the frame store set up but
    [spawn_thread] failing.  One CaptureStopped notice carries the error
    of [spawn_thread]; the empty store just made is kept, so the state is
    Encoding, not Idle; and with no worker about, whatever comes next the
    state stays Encoding and [QuitRequested] refuses. *)
Theorem spawn_failure_leaves_store (env : Env) (c : Controller) :
  State c = STATE_IDLE ->
  env_new_FramesList env = None ->
  env_spawn_thread env < 0 ->
  exists c1,
    ToggleCapture env c = Done c1 /\
    notices c1 = (notices c ++ [capture_stopped_message (env_spawn_thread env)])%list /\
    fFileList c1 = Some new_FramesList /\
    fCaptureThread c1 = env_spawn_thread env /\
    worker c1 = worker c /\
    State c1 = STATE_ENCODING /\
    (worker c = None ->
     forall cmds c2, run cmds c1 = Done c2 ->
       State c2 = STATE_ENCODING /\ QuitRequested c2 = false).
Proof.
  intros Hidle Hnew Hspawn.
  destruct (State_idle_no_frames c Hidle) as [Hnone _].
  unfold ToggleCapture. rewrite Hidle.
  unfold StartCapture, StartCapture_launch. simpl. rewrite Hnone, Hnew. simpl.
  destruct (Z.ltb_spec (env_spawn_thread env) 0); [|lia].
  eexists. split; [reflexivity|]. simpl.
  repeat split.
  - apply (State_encoding_with_store _ new_FramesList); simpl; [reflexivity|lia].
  - eapply (run_abandoned_refuses cmds new_FramesList); try eassumption.
    repeat split; simpl; [lia|assumption].
  - eapply (run_abandoned_refuses cmds new_FramesList); try eassumption.
    repeat split; simpl; [lia|assumption].
Qed.

(** X4: [ToggleCapture] in state Idle, the thread spawned but
    [resume_thread] failing.  The thread is killed and one CaptureStopped
    notice carries the error, yet the handle keeps the id of the dead
    thread: the state is Recording with no worker.  The next
    [ToggleCapture] therefore ends the "recording": with no stop watch
    from an earlier recording it goes through the NULL [fRecordWatch];
    with one, it reports the empty store by EncodeFinished with
    [B_ERROR], deletes the store and leaves the state at Recording, and
    the [ToggleCapture] after that goes through the NULL [fFileList]. *)
Theorem resume_failure_leaves_handle (env : Env) (c : Controller) :
  State c = STATE_IDLE ->
  env_new_FramesList env = None ->
  0 < env_spawn_thread env ->
  env_resume_thread env < B_OK ->
  exists c1,
    ToggleCapture env c = Done c1 /\
    notices c1 = (notices c ++ [capture_stopped_message (env_resume_thread env)])%list /\
    State c1 = STATE_RECORDING /\
    worker c1 = None /\
    fFileList c1 = Some new_FramesList /\
    (fRecordWatch c = None -> forall env', ToggleCapture env' c1 = NullDeref) /\
    (forall w, fRecordWatch c = Some w ->
     forall env', exists c2,
       ToggleCapture env' c1 = Done c2 /\
       notices c2 = (notices c1 ++ [mkBMessage kMsgControllerCaptureStopped [];
                                    encode_finished_message env' B_ERROR None])%list /\
       encode_workers (fEncoder c2) = encode_workers (fEncoder c) /\
       fFileList c2 = None /\
       State c2 = STATE_RECORDING /\
       forall env'', ToggleCapture env'' c2 = NullDeref).
Proof.
  intros Hidle Hnew Hspawn Hresume.
  destruct (State_idle_no_frames c Hidle) as [Hnone _].
  assert ((env_spawn_thread env >? 0) = true) as Hgt by (apply Z.gtb_lt; lia).
  unfold ToggleCapture at 1. rewrite Hidle.
  unfold StartCapture, StartCapture_launch. simpl. rewrite Hnone, Hnew. simpl.
  destruct (Z.ltb_spec (env_spawn_thread env) 0); [lia|].
  destruct (Z.ltb_spec (env_resume_thread env) B_OK); [|lia].
  eexists. split; [reflexivity|]. simpl.
  split; [reflexivity|].
  split; [unfold State; simpl; rewrite Hgt; reflexivity|].
  split; [reflexivity|]. split; [reflexivity|]. split.
  - intros Hr env'. unfold ToggleCapture, State, EndCapture. simpl.
    rewrite Hgt. simpl. unfold wait_for_thread. simpl. rewrite Hr. reflexivity.
  - intros w Hr env'. unfold ToggleCapture at 1. unfold State at 1. simpl.
    rewrite Hgt. unfold EndCapture. simpl. rewrite Hgt.
    unfold wait_for_thread. simpl. rewrite Hr.
    unfold EncodeMovie, _EncodingFinished. simpl.
    eexists. split; [reflexivity|]. simpl.
    split; [rewrite <- app_assoc; reflexivity|].
    split; [reflexivity|]. split; [reflexivity|].
    split; [unfold State; simpl; rewrite Hgt; reflexivity|].
    intros env''. unfold ToggleCapture, State, EndCapture. simpl. rewrite Hgt.
    unfold wait_for_thread. simpl. reflexivity.
Qed.

(** ** What the worker stores *)

Lemma wrap32_add_l (a b : Z) : wrap32 (wrap32 a + b) = wrap32 (a + b).
Proof.
  unfold wrap32.
  replace ((a + 2147483648) mod 4294967296 - 2147483648 + b + 2147483648)
    with ((a + 2147483648) mod 4294967296 + b) by lia.
  replace (a + b + 2147483648) with ((a + 2147483648) + b) by lia.
  rewrite Zplus_mod_idemp_l. reflexivity.
Qed.

Lemma wrap32_idem (a : Z) : wrap32 (wrap32 a) = wrap32 a.
Proof.
  replace (wrap32 a) with (wrap32 a + 0) at 1 by lia.
  rewrite wrap32_add_l, Z.add_0_r. reflexivity.
Qed.

Lemma good_pass_step (s : Snapshot) (l : CaptureLocals) (frames : FramesList)
    (c : Controller) :
  good_pass s = true ->
  worker c = Some l -> fKillCaptureThread c = false -> fPaused c = false ->
  fFileList c = Some frames ->
  CaptureThread_step s c =
    Done (set_worker (Some (mkLocals B_OK))
            (set_fNumFrames (wrap32 (fNumFrames c + 1))
               (set_fFileList (Some (frames ++ [entry_of s])%list) c))).
Proof.
  unfold good_pass. intros Hg Hw Hk Hp Hf.
  apply andb_prop in Hg. destruct Hg as [Hr Ha].
  unfold CaptureThread_step, capture_pass, AddItem.
  rewrite Hw, Hk, Hp. simpl. rewrite Hr, Hf, Ha. simpl.
  apply Z.eqb_eq in Hr. rewrite Hr. reflexivity.
Qed.

Lemma good_passes_run (snaps : list Snapshot) :
  forall (l : CaptureLocals) (frames : FramesList) (c : Controller),
  forallb good_pass snaps = true ->
  worker c = Some l -> fKillCaptureThread c = false -> fPaused c = false ->
  fFileList c = Some frames ->
  wrap32 (fNumFrames c) = fNumFrames c ->
  CaptureThread_run snaps c =
    Done (set_worker (Some (match snaps with [] => l | _ => mkLocals B_OK end))
            (set_fNumFrames (wrap32 (fNumFrames c + Z.of_nat (List.length snaps)))
               (set_fFileList (Some (frames ++ map entry_of snaps)%list) c))).
Proof.
  induction snaps as [|s rest IH]; intros l frames c Hall Hw Hk Hp Hf Hn.
  - simpl. rewrite Z.add_0_r, Hn, app_nil_r.
    destruct c; simpl in *. subst. reflexivity.
  - simpl in Hall. apply andb_prop in Hall. destruct Hall as [Hs Hrest].
    cbn [CaptureThread_run]. rewrite (good_pass_step s l frames c Hs Hw Hk Hp Hf).
    cbn [bind]. rewrite (IH (mkLocals B_OK) (frames ++ [entry_of s])%list);
      try assumption; try reflexivity.
    + cbn -[wrap32 Z.of_nat Z.add].
      rewrite wrap32_add_l, Nat2Z.inj_succ, <- app_assoc.
      replace (fNumFrames c + 1 + Z.of_nat (List.length rest))
        with (fNumFrames c + Z.succ (Z.of_nat (List.length rest))) by lia.
      destruct rest; reflexivity.
    + cbn -[wrap32]. apply wrap32_idem.
Qed.

(** X5: a worker that is neither told to leave nor paused, given passes
    that all go well, stores one frame per pass, in the order of the
    passes and after the frames already held, each with the bitmap and
    the time stamp of its pass; the count grows by the number of passes
    (in [int32]); no notice is sent and the state is as before. *)
Theorem frames_stored_in_capture_order (snaps : list Snapshot)
    (l : CaptureLocals) (frames : FramesList) (c : Controller) :
  forallb good_pass snaps = true ->
  worker c = Some l -> fKillCaptureThread c = false -> fPaused c = false ->
  fFileList c = Some frames ->
  -2147483648 <= fNumFrames c <= INT32_MAX ->
  exists c',
    CaptureThread_run snaps c = Done c' /\
    fFileList c' = Some (frames ++ map entry_of snaps)%list /\
    fNumFrames c' = wrap32 (fNumFrames c + Z.of_nat (List.length snaps)) /\
    notices c' = notices c /\
    State c' = State c /\
    worker c' <> None.
Proof.
  intros Hall Hw Hk Hp Hf Hn.
  rewrite (good_passes_run snaps l frames c Hall Hw Hk Hp Hf (wrap32_small _ Hn)).
  eexists. split; [reflexivity|]. cbn -[wrap32 Z.of_nat].
  split; [reflexivity|]. split; [reflexivity|]. split; [reflexivity|].
  split; [unfold State; cbn -[wrap32 Z.of_nat]; rewrite Hf; reflexivity|].
  destruct snaps; discriminate.
Qed.

Lemma failed_pass_step (s : Snapshot) (l : CaptureLocals) (frames : FramesList)
    (c : Controller) :
  good_pass s = false ->
  worker c = Some l -> fKillCaptureThread c = false -> fPaused c = false ->
  fFileList c = Some frames ->
  CaptureThread_step s c =
    Done (CaptureThread_exit (mkLocals (failure_status s)) c).
Proof.
  unfold good_pass, failure_status. intros Hg Hw Hk Hp Hf.
  unfold CaptureThread_step, capture_pass, AddItem.
  rewrite Hw, Hk, Hp. simpl.
  destruct (snap_ReadBitmap s =? B_OK) eqn:Hr; simpl in *.
  - rewrite Hf, Hg. simpl. f_equal.
  - reflexivity.
Qed.

Lemma failure_status_is_error (s : Snapshot) :
  good_pass s = false -> (failure_status s =? B_OK) = false.
Proof.
  unfold good_pass, failure_status.
  destruct (snap_ReadBitmap s =? B_OK) eqn:Hr; [reflexivity|exact (fun _ => Hr)].
Qed.

Lemma CaptureThread_run_no_worker (passes : list Snapshot) (c : Controller) :
  worker c = None -> CaptureThread_run passes c = Done c.
Proof.
  intros Hw. induction passes as [|s rest IH]; simpl; [reflexivity|].
  unfold CaptureThread_step. rewrite Hw. simpl. exact IH.
Qed.

Lemma CaptureThread_run_app (p q : list Snapshot) (c : Controller) :
  CaptureThread_run (p ++ q) c = (c1 <- CaptureThread_run p c ;; CaptureThread_run q c1).
Proof.
  revert c. induction p as [|s p IH]; simpl; intros c; [reflexivity|].
  destruct (CaptureThread_step s c); simpl; try reflexivity. apply IH.
Qed.

(** X6: after passes that went well, the first pass that does not (the
    screen read fails, or the store refuses the frame, which counts as
    [B_NO_MEMORY]) ends the recording whatever passes might follow: the
    worker is gone, the handle is -1, the kill flag is set, the store is
    deleted, and the one notice sent is CaptureStopped with that status.
    The count is not taken back: it stays at the number of frames that
    had been stored. *)
Theorem first_failed_pass_ends_recording (snaps later : list Snapshot)
    (s : Snapshot) (l : CaptureLocals) (frames : FramesList) (c : Controller) :
  forallb good_pass snaps = true ->
  good_pass s = false ->
  worker c = Some l -> fKillCaptureThread c = false -> fPaused c = false ->
  fFileList c = Some frames ->
  -2147483648 <= fNumFrames c <= INT32_MAX ->
  exists c',
    CaptureThread_run (snaps ++ s :: later) c = Done c' /\
    worker c' = None /\
    fCaptureThread c' = -1 /\
    fKillCaptureThread c' = true /\
    fFileList c' = None /\
    notices c' = (notices c ++ [capture_stopped_message (failure_status s)])%list /\
    fNumFrames c' = wrap32 (fNumFrames c + Z.of_nat (List.length snaps)) /\
    State c' <> STATE_RECORDING.
Proof.
  intros Hall Hs Hw Hk Hp Hf Hn.
  rewrite CaptureThread_run_app.
  rewrite (good_passes_run snaps l frames c Hall Hw Hk Hp Hf (wrap32_small _ Hn)).
  cbn [bind CaptureThread_run].
  erewrite failed_pass_step; try eassumption; try reflexivity.
  cbn [bind]. rewrite CaptureThread_run_no_worker
    by (apply CaptureThread_exit_handle).
  eexists. split; [reflexivity|].
  unfold CaptureThread_exit. cbn [error].
  rewrite (failure_status_is_error s Hs). cbn -[wrap32 Z.of_nat State].
  split; [reflexivity|]. split; [reflexivity|]. split; [reflexivity|].
  split; [reflexivity|]. split; [reflexivity|]. split; [reflexivity|].
  apply not_recording_when_cleared. reflexivity.
Qed.

(** ** Pausing *)

Lemma run_worker_turns (snaps : list Snapshot) (c : Controller) :
  run (map WorkerTurn snaps) c = CaptureThread_run snaps c.
Proof.
  revert c. induction snaps as [|s rest IH]; simpl; intros c; [reflexivity|].
  destruct (CaptureThread_step s c); simpl; try reflexivity. apply IH.
Qed.

Lemma run_app (p q : list command) (c : Controller) :
  run (p ++ q) c = (c1 <- run p c ;; run q c1).
Proof.
  revert c. induction p as [|cmd p IH]; simpl; intros c; [reflexivity|].
  destruct (exec cmd c); simpl; try reflexivity. apply IH.
Qed.

Lemma paused_worker_idles (snaps : list Snapshot) (c : Controller) :
  fPaused c = true -> fKillCaptureThread c = false ->
  CaptureThread_run snaps c = Done c.
Proof.
  intros Hp Hk. induction snaps as [|s rest IH]; simpl; [reflexivity|].
  unfold CaptureThread_step. rewrite Hk, Hp.
  destruct (worker c); simpl; exact IH.
Qed.

(** X7: a recording is paused, the worker takes any number of turns, and
    the recording is resumed.  The run goes through; the frames held, the
    count, the worker and the state are what they were before the pause,
    whatever the passes would have brought; the notices sent are
    CapturePaused and CaptureResumed, in this order; and the stop watch
    has been suspended at the time of the pause and resumed at the time
    of the resumption. *)
Theorem pause_keeps_frames (e1 e2 : Env) (snaps : list Snapshot)
    (w : BStopWatch) (c : Controller) :
  0 <= fCaptureThread c ->
  fRecordWatch c = Some w ->
  fPaused c = false ->
  fKillCaptureThread c = false ->
  exists c',
    run (GUITogglePause e1 :: map WorkerTurn snaps ++ [GUITogglePause e2]) c = Done c' /\
    fFileList c' = fFileList c /\
    fNumFrames c' = fNumFrames c /\
    worker c' = worker c /\
    State c' = State c /\
    fPaused c' = false /\
    notices c' = (notices c ++ [mkBMessage kMsgControllerCapturePaused [];
                                mkBMessage kMsgControllerCaptureResumed []])%list /\
    fRecordWatch c' = Some (Resume (env_now e2) (Suspend (env_now e1) w)).
Proof.
  intros Hc Hr Hp Hk.
  assert ((fCaptureThread c <? 0) = false) as Hlt by (apply Z.ltb_ge; lia).
  cbn [run exec]. unfold TogglePause at 1. rewrite Hlt, Hp.
  unfold _PauseCapture. simpl. rewrite Hr. cbn [bind].
  rewrite run_app, run_worker_turns.
  rewrite paused_worker_idles by (simpl; auto).
  cbn [bind run exec]. unfold TogglePause, _ResumeCapture. simpl. rewrite Hlt.
  eexists. split; [reflexivity|]. simpl.
  repeat split. rewrite <- app_assoc. reflexivity.
Qed.

(** X8: the record time across a pause.  With the stop watch running and
    the pause taken at a time other than 0, the record time stands still
    at its value of that moment for as long as the recording is paused,
    and after the resumption it is the time since the start less the
    length of the pause. *)
Theorem record_time_excludes_pause (e1 e2 : Env) (w : BStopWatch) (c : Controller) :
  0 <= fCaptureThread c ->
  fRecordWatch c = Some w ->
  fSuspendTime w = 0 ->
  fPaused c = false ->
  env_now e1 <> 0 ->
  exists c1 c2,
    TogglePause e1 c = Done c1 /\
    (forall now, RecordTime now c1 = env_now e1 - fStart w) /\
    TogglePause e2 c1 = Done c2 /\
    (forall now, RecordTime now c2 = (now - fStart w) - (env_now e2 - env_now e1)).
Proof.
  intros Hc Hr Hw Hp Ht.
  assert ((fCaptureThread c <? 0) = false) as Hlt by (apply Z.ltb_ge; lia).
  unfold TogglePause at 1. rewrite Hlt, Hp. unfold _PauseCapture. simpl. rewrite Hr.
  eexists. eexists. split; [reflexivity|].
  assert ((env_now e1 =? 0) = false) as Hne by (apply Z.eqb_neq; exact Ht).
  split.
  - intros now. unfold RecordTime, ElapsedTime, Suspend. simpl.
    rewrite Hw. simpl. rewrite Hne. reflexivity.
  - unfold TogglePause, _ResumeCapture. simpl. rewrite Hlt.
    split; [reflexivity|].
    intros now. unfold RecordTime, ElapsedTime, Resume, Suspend. simpl.
    rewrite Hw. simpl. rewrite Hne. simpl. lia.
Qed.

(** ** Handing the frames to the encoder *)

Lemma wait_for_thread_leaves_well (in_flight : option Snapshot)
    (l : CaptureLocals) (frames : FramesList) (c : Controller) :
  worker c = Some l -> fKillCaptureThread c = true ->
  fFileList c = Some frames ->
  leaves_well in_flight l ->
  wait_for_thread in_flight c =
    Done (set_worker None
            (set_fCaptureThread (-1)
               (set_fNumFrames (count_at_join in_flight (fNumFrames c))
                  (set_fFileList (Some (frames_at_join in_flight frames)) c)))).
Proof.
  intros Hw Hk Hf Hl. unfold wait_for_thread. rewrite Hw.
  destruct in_flight as [s|]; simpl in *.
  - unfold good_pass in Hl. apply andb_prop in Hl. destruct Hl as [Hr Ha].
    unfold capture_pass, AddItem. simpl. rewrite Hr, Hf, Ha. simpl. rewrite Hk.
    unfold CaptureThread_exit. simpl. rewrite Hr. simpl.
    f_equal. destruct c; simpl in *. subst. reflexivity.
  - rewrite Hk. unfold CaptureThread_exit. rewrite Hl. simpl.
    f_equal. destruct c; simpl in *. subst. reflexivity.
Qed.

Lemma CountItems_positive (frames : FramesList) :
  frames <> [] -> (CountItems frames <=? 0) = false.
Proof.
  intros H. apply Z.leb_gt. unfold CountItems.
  destruct frames; [contradiction|simpl; lia].
Qed.

Lemma EncodeMovie_hands_over (env : Env) (frames : FramesList) (c : Controller) :
  fFileList c = Some frames -> frames <> [] -> can_hand_over env ->
  exists c',
    EncodeMovie env c = Done c' /\
    notices c' = (notices c ++ [encode_started_message (CountItems frames)])%list /\
    enc_source (fEncoder c') = Some frames /\
    enc_output_file (fEncoder c') = Some (env_temp_file_name env) /\
    encode_workers (fEncoder c') = S (encode_workers (fEncoder c)) /\
    fFileList c' = None /\
    worker c' = worker c /\
    fCaptureThread c' = fCaptureThread c /\
    fEncoderThread c' = env_EncodeThreaded env /\
    fNumFrames c' = fNumFrames c /\
    fRecordWatch c' = fRecordWatch c.
Proof.
  intros Hf Hne (Hdir & Hmk). unfold EncodeMovie. rewrite Hf.
  rewrite (CountItems_positive _ Hne). rewrite Hdir.
  change (negb (B_OK =? B_OK)) with false. cbv iota.
  destruct (Z.ltb_spec (env_mkstemp env) 0); [lia|].
  eexists. split; [reflexivity|].
  repeat split.
Qed.

Lemma stop_joins_and_encodes (env : Env) (l : CaptureLocals)
    (frames : FramesList) (w : BStopWatch) (c : Controller) :
  fCaptureThread c > 0 ->
  worker c = Some l ->
  fFileList c = Some frames ->
  fRecordWatch c = Some w ->
  leaves_well (env_in_flight env) l ->
  frames_at_join (env_in_flight env) frames <> [] ->
  can_hand_over env ->
  exists c',
    ToggleCapture env c = Done c' /\
    notices c' =
      (notices c ++ [mkBMessage kMsgControllerCaptureStopped [];
                     encode_started_message
                       (CountItems (frames_at_join (env_in_flight env) frames))])%list /\
    enc_source (fEncoder c') = Some (frames_at_join (env_in_flight env) frames) /\
    enc_output_file (fEncoder c') = Some (env_temp_file_name env) /\
    encode_workers (fEncoder c') = S (encode_workers (fEncoder c)) /\
    fFileList c' = None /\
    worker c' = None /\
    fCaptureThread c' = -1 /\
    fEncoderThread c' = env_EncodeThreaded env /\
    fNumFrames c' = count_at_join (env_in_flight env) (fNumFrames c) /\
    fRecordWatch c' = Some (Suspend (env_now env) w) /\
    State c' = (if env_EncodeThreaded env >? 0 then STATE_ENCODING else STATE_IDLE).
Proof.
  intros Hc Hw Hf Hr Hl Hne Hover.
  assert ((fCaptureThread c >? 0) = true) as Hgt by (apply Z.gtb_lt; lia).
  unfold ToggleCapture. rewrite (proj2 (State_recording c) Hgt).
  unfold EndCapture. rewrite Hgt.
  set (c0 := set_fKillCaptureThread true (set_fPaused false c)).
  assert (worker c0 = Some l) as Hw0 by exact Hw.
  assert (fKillCaptureThread c0 = true) as Hk0 by reflexivity.
  assert (fFileList c0 = Some frames) as Hf0 by exact Hf.
  rewrite (wait_for_thread_leaves_well (env_in_flight env) l frames c0 Hw0 Hk0 Hf0 Hl).
  cbn [bind].
  set (c1 := set_worker None _).
  assert (fRecordWatch c1 = Some w) as Hr1 by exact Hr.
  rewrite Hr1.
  set (c2 := SendNotices _ _).
  assert (fFileList c2 = Some (frames_at_join (env_in_flight env) frames)) as Hf2
    by reflexivity.
  destruct (EncodeMovie_hands_over env _ c2 Hf2 Hne Hover)
    as (c' & Hrun & Hno & Hsrc & Hout & Hwk & Hfl & Hwo & Hct & Het & Hnum & Hrw).
  exists c'. split; [exact Hrun|].
  split; [rewrite Hno; subst c2; cbn [notices SendNotices];
          rewrite <- app_assoc; reflexivity|].
  split; [exact Hsrc|]. split; [exact Hout|].
  split; [rewrite Hwk; reflexivity|].
  split; [exact Hfl|].
  split; [rewrite Hwo; reflexivity|].
  split; [rewrite Hct; reflexivity|].
  split; [exact Het|].
  split; [rewrite Hnum; reflexivity|].
  split; [rewrite Hrw; reflexivity|].
  unfold State. rewrite Hct, Het, Hfl.
  change (fCaptureThread c2) with (-1).
  destruct (env_EncodeThreaded env >? 0); reflexivity.
Qed.

(** X9: [ToggleCapture] during a recording whose worker leaves without
    an error and with at least one frame held.  The frame of a pass in
    flight is still stored and counted.  The notices sent are
    CaptureStopped and then EncodeStarted with the number of frames; the
    encoder is given the temporary file name and all frames, in order,
    and is started once; the controller keeps no store, its capture
    handle is -1 and its encoder handle is what [EncodeThreaded]
    returned, so that the state is Encoding exactly when that is
    positive; no EncodeFinished notice is sent. *)
Theorem stop_hands_frames_to_encoder (env : Env) (l : CaptureLocals)
    (frames : FramesList) (w : BStopWatch) (c : Controller) :
  fCaptureThread c > 0 ->
  worker c = Some l ->
  fFileList c = Some frames ->
  fRecordWatch c = Some w ->
  leaves_well (env_in_flight env) l ->
  frames_at_join (env_in_flight env) frames <> [] ->
  can_hand_over env ->
  exists c',
    ToggleCapture env c = Done c' /\
    notices c' =
      (notices c ++ [mkBMessage kMsgControllerCaptureStopped [];
                     encode_started_message
                       (CountItems (frames_at_join (env_in_flight env) frames))])%list /\
    enc_source (fEncoder c') = Some (frames_at_join (env_in_flight env) frames) /\
    enc_output_file (fEncoder c') = Some (env_temp_file_name env) /\
    encode_workers (fEncoder c') = S (encode_workers (fEncoder c)) /\
    fFileList c' = None /\
    worker c' = None /\
    fCaptureThread c' = -1 /\
    fEncoderThread c' = env_EncodeThreaded env /\
    fNumFrames c' = count_at_join (env_in_flight env) (fNumFrames c) /\
    fRecordWatch c' = Some (Suspend (env_now env) w) /\
    State c' = (if env_EncodeThreaded env >? 0 then STATE_ENCODING else STATE_IDLE).
Proof.
  intros Hc Hw Hf Hr Hl Hne Hover.
  exact (stop_joins_and_encodes env l frames w c Hc Hw Hf Hr Hl Hne Hover).
Qed.

(** ** A whole recording *)

Lemma start_from_idle (env : Env) (c : Controller) :
  State c = STATE_IDLE -> can_start env ->
  exists c1,
    ToggleCapture env c = Done c1 /\
    worker c1 = Some (mkLocals B_ERROR) /\
    fKillCaptureThread c1 = false /\ fPaused c1 = false /\
    fFileList c1 = Some new_FramesList /\ fNumFrames c1 = 0 /\
    fCaptureThread c1 = env_spawn_thread env /\
    fRecordWatch c1 = Some (new_BStopWatch (env_now env)) /\
    notices c1 = (notices c ++ [capture_started_message])%list /\
    fEncoder c1 = fEncoder c /\ fEncoderThread c1 = fEncoderThread c.
Proof.
  intros Hidle (Hnew & Hspawn & Hresume).
  destruct (State_idle_no_frames c Hidle) as [Hnone _].
  unfold ToggleCapture. rewrite Hidle.
  unfold StartCapture, StartCapture_launch. simpl. rewrite Hnone, Hnew. simpl.
  destruct (Z.ltb_spec (env_spawn_thread env) 0); [lia|].
  destruct (Z.ltb_spec (env_resume_thread env) B_OK); [lia|].
  eexists. split; [reflexivity|].
  destruct (fRequestedRecordTime c =? 0); simpl; repeat split.
Qed.

(** X10: a whole recording.  From Idle, a start in an environment fit
    for it, one or more passes of the worker that all go well, a stop in
    an environment fit for the hand-over with the worker at the head of
    its loop, and the encoder's message that it has finished.  The run
    goes through and ends in state Idle with no store, no worker and the
    count at 0; the encoder has been started once and has been given the
    frames of the passes in their order; and the notices sent are
    CaptureStarted, CaptureStopped, EncodeStarted with the number of
    passes, and EncodeFinished with the encoder's status. *)
Theorem whole_recording_returns_to_idle (env1 env2 env3 : Env)
    (snaps : list Snapshot) (status : status_t) (fileName : option string)
    (c : Controller) :
  State c = STATE_IDLE ->
  can_start env1 ->
  snaps <> [] ->
  forallb good_pass snaps = true ->
  env_in_flight env2 = None ->
  can_hand_over env2 ->
  exists c',
    run (GUIToggleCapture env1 :: map WorkerTurn snaps
           ++ [GUIToggleCapture env2; EncodingFinished env3 status fileName]) c
      = Done c' /\
    State c' = STATE_IDLE /\
    fNumFrames c' = 0 /\
    fFileList c' = None /\
    worker c' = None /\
    enc_source (fEncoder c') = Some (map entry_of snaps) /\
    encode_workers (fEncoder c') = S (encode_workers (fEncoder c)) /\
    notices c' =
      (notices c ++ [capture_started_message;
                     mkBMessage kMsgControllerCaptureStopped [];
                     encode_started_message (Z.of_nat (List.length snaps));
                     encode_finished_message env3 status fileName])%list.
Proof.
  intros Hidle Hstart Hsnaps Hgood Hflight Hover.
  pose proof Hstart as (_ & Hspawn & _).
  destruct (start_from_idle env1 c Hidle Hstart)
    as (c1 & H1 & Hw1 & Hk1 & Hp1 & Hf1 & Hn1 & Hc1 & Hr1 & Hno1 & He1 & Het1).
  cbn [run exec]. rewrite H1. cbn [bind].
  rewrite run_app, run_worker_turns.
  assert (wrap32 (fNumFrames c1) = fNumFrames c1) as Hwrap by (rewrite Hn1; reflexivity).
  rewrite (good_passes_run snaps _ _ c1 Hgood Hw1 Hk1 Hp1 Hf1 Hwrap).
  cbn [bind run exec].
  match goal with |- context [ToggleCapture env2 ?c2] =>
    destruct (stop_joins_and_encodes env2 (mkLocals B_OK) (map entry_of snaps)
                (new_BStopWatch (env_now env1)) c2)
      as (c3 & H3 & Hno3 & Hsrc3 & _ & Hwk3 & Hf3 & Hw3 & Hc3 & _ & _ & _ & _)
  end.
  - simpl. rewrite Hc1. lia.
  - simpl. destruct snaps; [contradiction|reflexivity].
  - reflexivity.
  - simpl. exact Hr1.
  - rewrite Hflight. reflexivity.
  - rewrite Hflight. simpl. destruct snaps; [contradiction|discriminate].
  - exact Hover.
  - rewrite H3. cbn [bind].
    eexists. split; [reflexivity|].
    unfold _EncodingFinished. simpl.
    rewrite Hflight in Hno3, Hsrc3. simpl in Hno3, Hsrc3.
    split; [unfold State; simpl; rewrite Hc3, Hf3; reflexivity|].
    split; [reflexivity|]. split; [exact Hf3|]. split; [exact Hw3|].
    split; [exact Hsrc3|]. split; [rewrite Hwk3; simpl; rewrite He1; reflexivity|].
    rewrite Hno3. simpl. rewrite Hno1.
    unfold CountItems. rewrite length_map.
    repeat rewrite <- app_assoc. reflexivity.
Qed.

(** ** Cancelling an encoding *)

Lemma State_encoding_handles (c : Controller) :
  State c = STATE_ENCODING ->
  fCaptureThread c <= 0 /\ (fEncoderThread c > 0 \/ fFileList c <> None).
Proof.
  unfold State.
  destruct (Z.gtb_spec (fCaptureThread c) 0); [discriminate|].
  destruct (Z.gtb_spec (fEncoderThread c) 0); destruct (fFileList c); simpl;
    intros Hst; try discriminate; split; try lia; auto; right; discriminate.
Qed.

(** X11: [Cancel] in state Encoding asks the encoder to stop, puts the
    encoder handle at -1 and sends no notice; nothing else changes, so
    the state is Idle unless frames are still held.  With none held, a
    second [Cancel] changes nothing, and the encoder's message that it
    has finished, arriving late, leaves the state at Idle and adds its
    one EncodeFinished notice. *)
Theorem cancel_encoding_returns_to_idle (env : Env) (c : Controller) :
  State c = STATE_ENCODING ->
  exists c',
    Cancel env c = Done c' /\
    c' = set_fEncoderThread (-1) (set_fEncoder (Encoder_Cancel (fEncoder c)) c) /\
    enc_cancelled (fEncoder c') = true /\
    notices c' = notices c /\
    State c' = (if is_non_null (fFileList c) then STATE_ENCODING else STATE_IDLE) /\
    (fFileList c = None ->
       (forall env', Cancel env' c' = Done c') /\
       (forall env' status fileName,
          State (_EncodingFinished env' status fileName c') = STATE_IDLE /\
          notices (_EncodingFinished env' status fileName c') =
            (notices c ++ [encode_finished_message env' status fileName])%list)).
Proof.
  intros Hs. unfold Cancel at 1. rewrite Hs.
  eexists. split; [reflexivity|]. split; [reflexivity|].
  split; [reflexivity|]. split; [reflexivity|].
  apply State_encoding_handles in Hs. destruct Hs as [Hc _].
  assert ((fCaptureThread c >? 0) = false) as Hgt
    by (destruct (Z.gtb_spec (fCaptureThread c) 0); [lia|reflexivity]).
  assert (State (set_fEncoderThread (-1)
                   (set_fEncoder (Encoder_Cancel (fEncoder c)) c))
          = (if is_non_null (fFileList c) then STATE_ENCODING else STATE_IDLE)) as Hst
    by (unfold State; simpl; rewrite Hgt; reflexivity).
  split; [exact Hst|].
  intros Hnone. rewrite Hnone in Hst. simpl in Hst. split.
  - intros env'. unfold Cancel. rewrite Hst. reflexivity.
  - intros env' status fileName. unfold _EncodingFinished, State. simpl.
    rewrite Hgt, Hnone. split; reflexivity.
Qed.

(** ** The delay between two frames *)

(** X12: the delay the worker aims at between two frames is never
    negative and never above a second.  A frame rate that is not positive
    counts as 10 frames a second (100000 microseconds); a rate from 1 to
    1000 gives a whole number of milliseconds that is at most the exact
    period and misses it by less than one millisecond; a rate above 1000
    gives no delay at all. *)
Theorem captureDelay_bounds (rate : Z) :
  0 <= captureDelay rate <= 1000000 /\
  (rate <= 0 -> captureDelay rate = 100000) /\
  (1 <= rate <= 1000 ->
     captureDelay rate mod 1000 = 0 /\
     rate * captureDelay rate <= 1000000 < rate * (captureDelay rate + 1000)) /\
  (1000 < rate -> captureDelay rate = 0).
Proof.
  unfold captureDelay.
  destruct (Z.leb_spec rate 0) as [Hr|Hr].
  - split; [vm_compute; split; discriminate|].
    split; [reflexivity|]. split; intros; lia.
  - rewrite Z.quot_div_nonneg by lia.
    assert (0 <= 1000 / rate <= 1000) as Hq.
    { split; [apply Z.div_pos; lia|].
      apply Z.div_le_upper_bound; nia. }
    rewrite (wrap32_small (1000 / rate)) by (unfold INT32_MAX; lia).
    rewrite wrap32_small by (unfold INT32_MAX; lia).
    split; [lia|]. split; [lia|]. split.
    + intros Hrate. split.
      * rewrite Z.mul_comm. apply Z_mod_mult.
      * pose proof (Z.mul_div_le 1000 rate ltac:(lia)).
        pose proof (Z.mul_succ_div_gt 1000 rate ltac:(lia)).
        nia.
    + intros Hrate. rewrite Z.div_small by lia. reflexivity.
Qed.

(** ** Reading the screen through the direct window *)

Section CopyRows.

Variables (src : buffer) (areaSize bytesPerRow src_bytes_per_row : Z).
Hypothesis area_fits : 0 <= areaSize <= bytesPerRow.



End CopyRows.




(** X14: [ReadBitmap] with the direct window in use refuses a frame
    buffer of fewer than 8 bits per pixel with [B_ERROR] and leaves the
    bitmap alone, and with 8 bits or more it returns no status but
    [B_OK]; without the direct window, be it switched off or not yet
    announced, the call is the screen's own read, status and pixels. *)
Theorem ReadBitmap_depth_and_fallback (use available : bool)
    (info : direct_buffer_info) (screen : status_t * buffer)
    (bitmap : BBitmap) (bounds : BRect) :
  0 <= bits_per_pixel info < 4294967296 ->
  (use && available = false ->
     ReadBitmap use available info screen bitmap bounds =
       Some (fst screen, mkBitmap (snd screen) (BytesPerRow bitmap))) /\
  (use && available = true -> bits_per_pixel info < 8 ->
     ReadBitmap use available info screen bitmap bounds = Some (B_ERROR, bitmap)) /\
  (use && available = true -> 8 <= bits_per_pixel info ->
     forall status bitmap',
       ReadBitmap use available info screen bitmap bounds = Some (status, bitmap') ->
       status = B_OK).
Proof.
  intros Hdepth. unfold ReadBitmap. split; [|split].
  - intros ->. reflexivity.
  - intros -> Hlow. simpl.
    rewrite Z.shiftr_div_pow2 by lia. change (2 ^ 3) with 8.
    rewrite Z.div_small by lia. reflexivity.
  - intros -> Hhigh status bitmap'. simpl.
    rewrite Z.shiftr_div_pow2 by lia. change (2 ^ 3) with 8.
    assert (1 <= bits_per_pixel info / 8 < 536870912) as Hq.
    { split; [apply Z.div_le_lower_bound; lia|apply Z.div_lt_upper_bound; lia]. }
    rewrite wrap32_small by (unfold INT32_MAX; lia).
    destruct (Z.leb_spec (bits_per_pixel info / 8) 0); [lia|].
    destruct (_ && _); [discriminate|].
    intros Hsome. injection Hsome as <- _. reflexivity.
Qed.

(** ** The average frame rate, where it is sound *)

(** X15: [AverageFPS] never divides by zero.  With a clock that does not
    run backwards between its two readings and a stop watch started no
    later than the first, the call returns a value; the value is 0 when
    the first reading of the record time is 0, and in particular when
    there is no stop watch yet. *)
Theorem AverageFPS_returns (t1 t2 : bigtime_t) (c : Controller) :
  t1 <= t2 ->
  (forall w, fRecordWatch c = Some w -> fStart w <= t1) ->
  exists fps,
    AverageFPS t1 t2 c = Done fps /\
    (RecordTime t1 c = 0 -> fps = 0) /\
    (fRecordWatch c = None -> fps = 0).
Proof.
  intros Ht Hw.
  pose proof (AverageFPS_divides c t1 t2 Ht Hw) as Hdiv.
  unfold AverageFPS in *.
  destruct (Z.eqb_spec (RecordTime t1 c) 0) as [Hz|Hz].
  - exists 0. repeat split.
  - destruct (RecordTime t2 c =? 0); [contradiction Hdiv; reflexivity|].
    eexists. split; [reflexivity|]. split.
    + intros H; contradiction.
    + intros H. rewrite (RecordTime_without_watch c t1 H) in Hz. contradiction.
Qed.

(** X16: up to 2147 recorded frames, and with a record time that is
    positive at both readings, [AverageFPS] is the number of frames times
    a million, divided by the record time of the second reading and
    rounded down. *)
Theorem AverageFPS_exact_up_to_2147_frames (t1 t2 : bigtime_t) (c : Controller) :
  0 <= RecordedFrames c <= 2147 ->
  0 < RecordTime t1 c ->
  0 < RecordTime t2 c ->
  AverageFPS t1 t2 c = Done (RecordedFrames c * 1000000 / RecordTime t2 c).
Proof.
  intros Hf H1 H2. unfold AverageFPS.
  destruct (Z.eqb_spec (RecordTime t1 c) 0); [lia|].
  destruct (Z.eqb_spec (RecordTime t2 c) 0); [lia|].
  rewrite (wrap32_small (RecordedFrames c * 1000000)) by (unfold INT32_MAX; lia).
  rewrite Z.quot_div_nonneg by lia.
  assert (0 <= RecordedFrames c * 1000000 / RecordTime t2 c)
    by (apply Z.div_pos; lia).
  assert (RecordedFrames c * 1000000 / RecordTime t2 c <= RecordedFrames c * 1000000)
    by (apply Z.div_le_upper_bound; nia).
  rewrite wrap32_small by (unfold INT32_MAX; lia). reflexivity.
Qed.

(** ** Instances of the further properties *)

Lemma abandoned_store_is_never_released_witness :
  abandoned [mkBitmapEntry 0 2000] cancelled_with_frame /\
  exists c',
    run restless cancelled_with_frame = Done c' /\
    fFileList c' = Some [mkBitmapEntry 0 2000] /\
    State c' = STATE_ENCODING /\
    QuitRequested c' = false.
Proof.
  assert (abandoned [mkBitmapEntry 0 2000] cancelled_with_frame) as Ha
    by (repeat split; vm_compute; discriminate).
  split; [exact Ha|].
  eexists. split; [vm_compute; reflexivity|].
  match goal with |- fFileList ?c' = _ /\ _ =>
    assert (run restless cancelled_with_frame = Done c') as Hrun
      by (vm_compute; reflexivity);
    destruct (abandoned_store_is_never_released restless _ _ c' Ha Hrun)
      as (H1 & H2 & H3 & _)
  end.
  repeat split; assumption.
Defined.

Lemma spawn_failure_leaves_store_witness :
  State initial_Controller = STATE_IDLE /\
  env_spawn_thread no_thread < 0 /\
  exists c1,
    ToggleCapture no_thread initial_Controller = Done c1 /\
    State c1 = STATE_ENCODING /\
    forall cmds c2, run cmds c1 = Done c2 -> QuitRequested c2 = false.
Proof.
  assert (State initial_Controller = STATE_IDLE) as H0 by reflexivity.
  assert (env_spawn_thread no_thread < 0) as H1 by reflexivity.
  destruct (spawn_failure_leaves_store no_thread initial_Controller H0 eq_refl H1)
    as (c1 & Hrun & _ & _ & _ & _ & Hs & Hlater).
  split; [exact H0|]. split; [exact H1|].
  exists c1. split; [exact Hrun|]. split; [exact Hs|].
  intros cmds c2 H. exact (proj2 (Hlater eq_refl cmds c2 H)).
Defined.

Lemma resume_failure_leaves_handle_witness :
  State initial_Controller = STATE_IDLE /\
  env_resume_thread no_resume < B_OK /\
  exists c1,
    ToggleCapture no_resume initial_Controller = Done c1 /\
    State c1 = STATE_RECORDING /\
    worker c1 = None /\
    ToggleCapture calm c1 = NullDeref.
Proof.
  assert (State initial_Controller = STATE_IDLE) as H0 by reflexivity.
  assert (0 < env_spawn_thread no_resume) as H1 by reflexivity.
  assert (env_resume_thread no_resume < B_OK) as H2 by reflexivity.
  destruct (resume_failure_leaves_handle no_resume initial_Controller H0 eq_refl H1 H2)
    as (c1 & Hrun & _ & Hs & Hw & _ & Hnull & _).
  split; [exact H0|]. split; [exact H2|].
  exists c1. split; [exact Hrun|]. split; [exact Hs|]. split; [exact Hw|].
  exact (Hnull eq_refl calm).
Defined.

Lemma frames_stored_in_capture_order_witness :
  exists c',
    CaptureThread_run [good_frame 0; good_frame 1; good_frame 2] fresh_recording
      = Done c' /\
    fFileList c' = Some [mkBitmapEntry 0 2000; mkBitmapEntry 1 102000;
                         mkBitmapEntry 2 202000] /\
    fNumFrames c' = 3.
Proof.
  destruct (frames_stored_in_capture_order
              [good_frame 0; good_frame 1; good_frame 2]
              (mkLocals B_ERROR) [] fresh_recording)
    as (c' & Hrun & Hf & Hn & _); try reflexivity.
  - split; discriminate.
  - exists c'. split; [exact Hrun|]. split; [exact Hf|exact Hn].
Defined.

Lemma first_failed_pass_ends_recording_witness :
  good_pass failed_read = false /\
  exists c',
    CaptureThread_run ([good_frame 0; good_frame 1] ++ failed_read :: [good_frame 2])
      fresh_recording = Done c' /\
    fFileList c' = None /\
    fNumFrames c' = 2 /\
    notices c' = [capture_started_message; capture_stopped_message B_ERROR].
Proof.
  assert (good_pass failed_read = false) as Hbad by reflexivity.
  destruct (first_failed_pass_ends_recording [good_frame 0; good_frame 1]
              [good_frame 2] failed_read (mkLocals B_ERROR) [] fresh_recording)
    as (c' & Hrun & _ & _ & _ & Hf & Hno & Hn & _); try reflexivity.
  - split; discriminate.
  - split; [exact Hbad|].
    exists c'. split; [exact Hrun|]. split; [exact Hf|].
    split; [exact Hn|exact Hno].
Defined.

Lemma pause_keeps_frames_witness :
  exists c',
    run (GUITogglePause calm
           :: map WorkerTurn [good_frame 1; failed_read] ++ [GUITogglePause no_storage])
        one_frame_recording = Done c' /\
    fFileList c' = Some [mkBitmapEntry 0 2000] /\
    fNumFrames c' = 1 /\
    State c' = STATE_RECORDING.
Proof.
  destruct (pause_keeps_frames calm no_storage [good_frame 1; failed_read]
              (new_BStopWatch 1000) one_frame_recording)
    as (c' & Hrun & Hf & Hn & _ & Hs & _); try reflexivity.
  - discriminate.
  - exists c'. split; [exact Hrun|]. split; [exact Hf|].
    split; [exact Hn|exact Hs].
Defined.

Lemma record_time_excludes_pause_witness :
  exists c1 c2,
    TogglePause mid_pass one_frame_recording = Done c1 /\
    RecordTime 999999 c1 = 249000 /\
    TogglePause (mkEnv 750000 None 77 B_OK None B_OK 3 0 EmptyString 78 EmptyString) c1
      = Done c2 /\
    RecordTime 1000000 c2 = 499000.
Proof.
  destruct (record_time_excludes_pause mid_pass
              (mkEnv 750000 None 77 B_OK None B_OK 3 0 EmptyString 78 EmptyString)
              (new_BStopWatch 1000) one_frame_recording)
    as (c1 & c2 & H1 & Hp & H2 & Hr); try reflexivity; try discriminate.
  exists c1, c2. split; [exact H1|]. split; [exact (Hp 999999)|].
  split; [exact H2|exact (Hr 1000000)].
Defined.

Lemma stop_hands_frames_to_encoder_witness :
  exists c',
    ToggleCapture mid_pass one_frame_recording = Done c' /\
    enc_source (fEncoder c') = Some [mkBitmapEntry 0 2000; mkBitmapEntry 1 102000] /\
    encode_workers (fEncoder c') = 1%nat /\
    fNumFrames c' = 2 /\
    State c' = STATE_ENCODING.
Proof.
  destruct (stop_hands_frames_to_encoder mid_pass (mkLocals B_OK)
              [mkBitmapEntry 0 2000] (new_BStopWatch 1000) one_frame_recording)
    as (c' & Hrun & _ & Hsrc & _ & Hwk & _ & _ & _ & _ & Hn & _ & Hs);
    try reflexivity; try discriminate.
  - split; [reflexivity|discriminate].
  - exists c'. split; [exact Hrun|]. split; [exact Hsrc|].
    split; [exact Hwk|]. split; [exact Hn|exact Hs].
Defined.

Lemma whole_recording_returns_to_idle_witness :
  exists c',
    run (GUIToggleCapture calm :: map WorkerTurn [good_frame 0; good_frame 1]
           ++ [GUIToggleCapture calm;
               EncodingFinished calm B_OK (Some "/tmp/BSC_clip_a1b2c3d"%string)])
        initial_Controller = Done c' /\
    State c' = STATE_IDLE /\
    enc_source (fEncoder c') = Some [mkBitmapEntry 0 2000; mkBitmapEntry 1 102000] /\
    notices c' =
      [capture_started_message;
       mkBMessage kMsgControllerCaptureStopped [];
       encode_started_message 2;
       encode_finished_message calm B_OK (Some "/tmp/BSC_clip_a1b2c3d"%string)].
Proof.
  destruct (whole_recording_returns_to_idle calm calm calm
              [good_frame 0; good_frame 1] B_OK
              (Some "/tmp/BSC_clip_a1b2c3d"%string) initial_Controller)
    as (c' & Hrun & Hs & _ & _ & _ & Hsrc & _ & Hno); try reflexivity;
    try discriminate.
  - repeat split. discriminate.
  - split; [reflexivity|discriminate].
  - exists c'. split; [exact Hrun|]. split; [exact Hs|].
    split; [exact Hsrc|exact Hno].
Defined.

Lemma cancel_encoding_returns_to_idle_witness :
  State encoding_one_frame = STATE_ENCODING /\
  exists c',
    Cancel calm encoding_one_frame = Done c' /\
    State c' = STATE_IDLE /\
    enc_cancelled (fEncoder c') = true /\
    Cancel calm c' = Done c'.
Proof.
  assert (State encoding_one_frame = STATE_ENCODING) as H0 by reflexivity.
  destruct (cancel_encoding_returns_to_idle calm encoding_one_frame H0)
    as (c' & Hrun & _ & Hc & _ & Hs & Hlater).
  split; [exact H0|].
  exists c'. split; [exact Hrun|]. split; [exact Hs|]. split; [exact Hc|].
  exact (proj1 (Hlater eq_refl) calm).
Defined.


Lemma ReadBitmap_depth_and_fallback_witness :
  ReadBitmap true true shallow_screen (B_OK, fun _ => 7) blank_bitmap small_area
    = Some (B_ERROR, blank_bitmap) /\
  ReadBitmap true false shallow_screen (B_OK, fun _ => 7) blank_bitmap small_area
    = Some (B_OK, mkBitmap (fun _ => 7) 16).
Proof.
  assert (0 <= bits_per_pixel shallow_screen < 4294967296) as H by (simpl; lia).
  split.
  - destruct (ReadBitmap_depth_and_fallback true true shallow_screen
                (B_OK, fun _ => 7) blank_bitmap small_area H) as (_ & Hlow & _).
    apply Hlow; [reflexivity|simpl; lia].
  - destruct (ReadBitmap_depth_and_fallback true false shallow_screen
                (B_OK, fun _ => 7) blank_bitmap small_area H) as (Hoff & _).
    apply Hoff. reflexivity.
Defined.

Lemma AverageFPS_returns_witness :
  (exists fps, AverageFPS 20000000 20000001 short_recording = Done fps) /\
  AverageFPS 0 5 initial_Controller = Done 0.
Proof.
  split.
  - destruct (AverageFPS_returns 20000000 20000001 short_recording) as (fps & H & _).
    + lia.
    + intros w Hw. injection Hw as <-. simpl. lia.
    + exists fps. exact H.
  - destruct (AverageFPS_returns 0 5 initial_Controller) as (fps & H & _ & Hnone).
    + lia.
    + intros w Hw. discriminate.
    + rewrite H. f_equal. apply Hnone. reflexivity.
Defined.

Lemma AverageFPS_exact_up_to_2147_frames_witness :
  AverageFPS 20000000 20000001 short_recording = Done 30.
Proof.
  rewrite (AverageFPS_exact_up_to_2147_frames 20000000 20000001 short_recording).
  - reflexivity.
  - simpl. lia.
  - reflexivity.
  - reflexivity.
Defined.
